(** * Consensus primitives of the Doge node: block headers, AuxPoW, chain parameters

    A shallow embedding of
      - src/primitives/block.h, src/primitives/block.cpp, src/primitives/block__.cpp
      - src/consensus/params.h, src/chainparams.cpp, src/amount.h
    Integers of the C++ code are [Z] with the wrap-around written out, byte
    strings are [list byte], [uint256] is its 32 raw bytes. *)

From Stdlib Require Import String Ascii ZArith List Bool Lia.
From coqutil Require Import Byte Word.LittleEndianList.
Import ListNotations.

Local Open Scope Z_scope.

(** ** Fixed-width integers *)

Module Int.

(** Conversion to [uint32_t]. *)
Definition u32 (x : Z) : Z := x mod 2 ^ 32.

(** Conversion to [int32_t] / [int] (two's complement). *)
Definition i32 (x : Z) : Z := (x + 2 ^ 31) mod 2 ^ 32 - 2 ^ 31.

(** Conversion to [uint64_t]. *)
Definition u64 (x : Z) : Z := x mod 2 ^ 64.

End Int.

(** ** Hashing (hash.h, crypto/sha256.cpp: not part of the sources at hand) *)

Module Crypto.

(** The low 32 bits of a non-negative number. *)
Definition low32 (x : Z) : Z := Z.land x 4294967295.

Definition rotr (n x : Z) : Z :=
  Z.lor (Z.shiftr x n) (low32 (Z.shiftl x (32 - n))).

Definition Ch (x y z : Z) : Z :=
  Z.lxor (Z.land x y) (Z.land (Z.lxor x 4294967295) z).

Definition Maj (x y z : Z) : Z :=
  Z.lxor (Z.lxor (Z.land x y) (Z.land x z)) (Z.land y z).

Definition Sigma0 (x : Z) : Z := Z.lxor (Z.lxor (rotr 2 x) (rotr 13 x)) (rotr 22 x).
Definition Sigma1 (x : Z) : Z := Z.lxor (Z.lxor (rotr 6 x) (rotr 11 x)) (rotr 25 x).
Definition sigma0 (x : Z) : Z := Z.lxor (Z.lxor (rotr 7 x) (rotr 18 x)) (Z.shiftr x 3).
Definition sigma1 (x : Z) : Z := Z.lxor (Z.lxor (rotr 17 x) (rotr 19 x)) (Z.shiftr x 10).

(** The round constants are the fractional parts of the cube roots of the
    first 64 primes, the initial state those of the square roots of the
    first 8; both are computed here rather than tabulated. *)
Definition is_prime (n : Z) : bool :=
  forallb (fun d => negb (n mod Z.of_nat d =? 0)) (seq 2 (Z.to_nat n - 2)).

Definition primes64 : list Z :=
  Eval vm_compute in filter is_prime (map Z.of_nat (seq 2 310)).

(** Largest [r < 2 ^ bits] with [r ^ 3 <= n]. *)
Fixpoint icbrt (bits : nat) (n r : Z) : Z :=
  match bits with
  | O => r
  | S b =>
      let r' := r + 2 ^ Z.of_nat b in
      icbrt b n (if r' * r' * r' <=? n then r' else r)
  end.

Definition K : list Z :=
  Eval vm_compute in map (fun p => low32 (icbrt 40 (p * 2 ^ 96) 0)) primes64.

Definition H0 : list Z :=
  Eval vm_compute in map (fun p => low32 (Z.sqrt (p * 2 ^ 64))) (firstn 8 primes64).

(** Big-endian 32-bit words of a block and back. *)
Fixpoint be_words (bs : list byte) : list Z :=
  match bs with
  | b0 :: b1 :: b2 :: b3 :: r =>
      (byte.unsigned b0 * 16777216 + byte.unsigned b1 * 65536
       + byte.unsigned b2 * 256 + byte.unsigned b3) :: be_words r
  | _ => []
  end.

Definition be_bytes (n : nat) (x : Z) : list byte := rev (le_split n x).

(** Message schedule, most recent word first. *)
Fixpoint schedule (n : nat) (ws : list Z) : list Z :=
  match n with
  | O => ws
  | S m =>
      let w := low32 (sigma1 (nth 1 ws 0) + nth 6 ws 0
                    + sigma0 (nth 14 ws 0) + nth 15 ws 0) in
      schedule m (w :: ws)
  end.

Definition round (s : list Z) (kw : Z * Z) : list Z :=
  match s with
  | [a; b; c; d; e; f; g; h] =>
      let t1 := h + Sigma1 e + Ch e f g + fst kw + snd kw in
      let t2 := Sigma0 a + Maj a b c in
      [low32 (t1 + t2); a; b; c; low32 (d + t1); e; f; g]
  | _ => s
  end.

Definition compress (s : list Z) (block : list byte) : list Z :=
  let ws := rev (schedule 48 (rev (be_words block))) in
  map (fun p => low32 (fst p + snd p)) (combine s (fold_left round (combine K ws) s)).

Definition pad (msg : list byte) : list byte :=
  let l := length msg in
  let zeros := ((64 - (l + 9) mod 64) mod 64)%nat in
  msg ++ [byte.of_Z 128] ++ repeat (byte.of_Z 0) zeros
      ++ be_bytes 8 (Z.of_nat l * 8).

Fixpoint blocks (n : nat) (bs : list byte) : list (list byte) :=
  match n with
  | O => []
  | S m => firstn 64 bs :: blocks m (skipn 64 bs)
  end.

(** Modelled from the spec: crypto/sha256.cpp is missing; this is the
    SHA-256 round of section 4.1 (FIPS 180-4), on byte strings. *)
Definition SHA256 (msg : list byte) : list byte :=
  let p := pad msg in
  let st := fold_left compress (blocks (length p / 64) p) H0 in
  flat_map (be_bytes 4) st.

(** Modelled from the spec: hash.h is missing; [dsha256] of section 4.1,
    "two sequential SHA-256 rounds, output raw (not reversed)". *)
Definition dsha256 (msg : list byte) : list byte := SHA256 (SHA256 msg).

End Crypto.

Definition bytes_of_string (s : string) : list byte :=
  map byte_of_ascii (list_ascii_of_string s).

(** ** uint256 (uint256.h) and serialization (serialize.h) *)

Definition uint256 : Type := list byte.

(** The default-constructed [uint256()]: 32 zero bytes. *)
Definition uint256_null : uint256 := repeat (byte.of_Z 0) 32.

(** [operator==] on the 32 raw bytes. *)
Definition uint256_eqb (a b : uint256) : bool :=
  if list_eq_dec Byte.byte_eq_dec a b then true else false.

(** [uint256S]: hex is displayed most significant byte first, the blob is
    stored least significant byte first. *)
Definition uint256S (x : Z) : uint256 := le_split 32 x.

(** Modelled from the spec: [Hash(p1begin, p1end, p2begin, p2end)] of hash.h
    is missing; section 4.3 has it as [dsha256] of the two ranges one after
    the other. *)
Definition Hash (a b : list byte) : uint256 := Crypto.dsha256 (a ++ b).

Module Ser.

(** Stream types of serialize.h. *)
Definition SER_NETWORK : Z := 1.
Definition SER_DISK : Z := 2.
Definition SER_GETHASH : Z := 4.

Definition ser_u32 (x : Z) : list byte := le_split 4 x.
Definition ser_i32 (x : Z) : list byte := le_split 4 x.
Definition ser_i64 (x : Z) : list byte := le_split 8 x.
Definition ser_uint256 (h : uint256) : list byte := h.

(** Modelled from the spec: serialize.h is missing; the CompactSize length
    prefix of section 4.2. *)
Definition WriteCompactSize (n : Z) : list byte :=
  if n <? 253 then le_split 1 n
  else if n <=? 65535 then byte.of_Z 253 :: le_split 2 n
  else if n <=? 4294967295 then byte.of_Z 254 :: le_split 4 n
  else byte.of_Z 255 :: le_split 8 n.

Definition ser_bytes (v : list byte) : list byte :=
  WriteCompactSize (Z.of_nat (length v)) ++ v.

Definition ser_vector {A : Type} (f : A -> list byte) (v : list A) : list byte :=
  WriteCompactSize (Z.of_nat (length v)) ++ flat_map f v.

End Ser.

(** ** Scripts and transactions (script/script.h, primitives/transaction.h) *)

Definition CScript : Type := list byte.

Module Script.

Definition OP_0 : Z := 0.
Definition OP_PUSHDATA1 : Z := 76.
Definition OP_PUSHDATA2 : Z := 77.
Definition OP_PUSHDATA4 : Z := 78.
Definition OP_1 : Z := 81.
Definition OP_CHECKSIG : Z := 172.

(** [CScript::operator<<(opcodetype)]. *)
Definition push_opcode (s : CScript) (op : Z) : CScript := s ++ [byte.of_Z op].

(** Modelled from the spec: script/script.h is missing; the data push
    [CScript::operator<<(const std::vector<unsigned char>&)], the
    "OP_PUSH(n bytes)" of section 4.6. *)
Definition push_data (s : CScript) (b : list byte) : CScript :=
  let n := Z.of_nat (length b) in
  s ++ (if n <? OP_PUSHDATA1 then le_split 1 n
        else if n <=? 255 then byte.of_Z OP_PUSHDATA1 :: le_split 1 n
        else if n <=? 65535 then byte.of_Z OP_PUSHDATA2 :: le_split 2 n
        else byte.of_Z OP_PUSHDATA4 :: le_split 4 n)
    ++ b.

(** Little-endian digits of a positive magnitude, at most [fuel] of them. *)
Fixpoint magnitude (fuel : nat) (a : Z) : list Z :=
  match fuel with
  | O => []
  | S f => if a =? 0 then [] else Z.land a 255 :: magnitude f (Z.shiftr a 8)
  end.

(** Modelled from the spec: [CScriptNum::serialize] of script/script.h
    (missing): sign-and-magnitude, least significant byte first. *)
Definition CScriptNum_serialize (value : Z) : list byte :=
  if value =? 0 then []
  else
    let neg := value <? 0 in
    let digits := magnitude 9 (Z.abs value) in
    let last_ := last digits 0 in
    map byte.of_Z
      (if Z.land last_ 128 =? 0
       then (if neg then removelast digits ++ [Z.lor last_ 128] else digits)
       else digits ++ [if neg then 128 else 0]).

(** [CScript::operator<<(int64_t)], that is [push_int64]. *)
Definition push_int64 (s : CScript) (n : Z) : CScript :=
  if (n =? -1) || ((1 <=? n) && (n <=? 16)) then push_opcode s (n + (OP_1 - 1))
  else if n =? 0 then push_opcode s OP_0
  else push_data s (CScriptNum_serialize n).

(** [CScript::operator<<(const CScriptNum&)]: always a data push. *)
Definition push_scriptnum (s : CScript) (n : Z) : CScript :=
  push_data s (CScriptNum_serialize n).

End Script.

Record COutPoint := { outpoint_hash : uint256; outpoint_n : Z }.

Record CTxIn := { prevout : COutPoint; scriptSig : CScript; nSequence : Z }.

Record CTxOut := { nValue : Z; scriptPubKey : CScript }.

Record CTransaction :=
  { tx_nVersion : Z; vin : list CTxIn; vout : list CTxOut; nLockTime : Z }.

(** A default-constructed input, as [vin.resize(1)] makes it: null prevout
    and [SEQUENCE_FINAL]. *)
Definition CTxIn_default : CTxIn :=
  {| prevout := {| outpoint_hash := uint256_null; outpoint_n := 4294967295 |};
     scriptSig := [];
     nSequence := 4294967295 |}.

(** The empty transaction of [MakeTransactionRef()]. *)
Definition CTransaction_empty : CTransaction :=
  {| tx_nVersion := 2; vin := []; vout := []; nLockTime := 0 |}.

Module Tx.

Import Ser.

Definition ser_txin (i : CTxIn) : list byte :=
  ser_uint256 (outpoint_hash (prevout i)) ++ ser_u32 (outpoint_n (prevout i))
    ++ ser_bytes (scriptSig i) ++ ser_u32 (nSequence i).

Definition ser_txout (o : CTxOut) : list byte :=
  ser_i64 (nValue o) ++ ser_bytes (scriptPubKey o).

(** Modelled from the spec: primitives/transaction.h is missing; the
    encoding without witness data that the transaction id is taken of,
    with the integers and length prefixes of section 4.2. *)
Definition serialize (tx : CTransaction) : list byte :=
  ser_i32 (tx_nVersion tx) ++ ser_vector ser_txin (vin tx)
    ++ ser_vector ser_txout (vout tx) ++ ser_u32 (nLockTime tx).

(** [CTransaction::GetHash]. *)
Definition GetHash (tx : CTransaction) : uint256 := Crypto.dsha256 (serialize tx).

End Tx.

(** ** Consensus parameters (consensus/params.h) *)

Module Consensus.

Record Params := {
  hashGenesisBlock : uint256;
  nSubsidyHalvingInterval : Z;
  BIP34Height : Z;
  BIP34Hash : uint256;
  BIP65Height : Z;
  BIP66Height : Z;
  CSVHeight : Z;
  WitnessHeight : Z;
  nCoinbaseMaturityBegin : Z;
  CoinbaseMaturity240Height : Z;
  powLimit : Z;
  fPowAllowMinDifficultyBlocks : bool;
  nPowTargetSpacing : Z;
  nPowTargetTimespanBegin : Z;
  PowTargetTimespan60Height : Z;
  nMinimumChainWork : uint256;
  defaultAssumeValid : uint256;
  nAuxpowChainId : Z;
  fStrictChainId : bool;
  DigishieldDifficultyCalculationHeight : Z;
  SimplifiedRewardsHeight : Z;
  DisallowLegacyBlocksHeight : Z
}.

Definition nCoinbaseMaturity (p : Params) (Height : Z) : Z :=
  Int.i32 (if Height >=? CoinbaseMaturity240Height p then 240
           else nCoinbaseMaturityBegin p).

Definition nPowTargetTimespan (p : Params) (Height : Z) : Z :=
  if Height >=? PowTargetTimespan60Height p then 60
  else nPowTargetTimespanBegin p.

(** Integer division of [int64_t] truncates towards zero. *)
Definition DifficultyAdjustmentInterval (p : Params) (Height : Z) : Z :=
  Z.quot (nPowTargetTimespan p Height) (nPowTargetSpacing p).

End Consensus.

(** ** Block headers and the AuxPoW appendix (primitives/block.h) *)

Inductive CBlockHeader : Type :=
  mkCBlockHeader (nVersion : Z) (hashPrevBlock hashMerkleRoot : uint256)
                 (nTime nBits nNonce : Z) (auxpow : option CAuxPow)
with CAuxPow : Type :=
  mkCAuxPow (tx : CTransaction) (hashBlock : uint256)
            (vMerkleBranch : list uint256) (nIndex : Z)
            (vChainMerkleBranch : list uint256) (nChainIndex : Z)
            (parentBlock : CBlockHeader).

Definition nVersion (h : CBlockHeader) : Z :=
  let 'mkCBlockHeader v _ _ _ _ _ _ := h in v.
Definition hashPrevBlock (h : CBlockHeader) : uint256 :=
  let 'mkCBlockHeader _ p _ _ _ _ _ := h in p.
Definition hashMerkleRoot (h : CBlockHeader) : uint256 :=
  let 'mkCBlockHeader _ _ m _ _ _ _ := h in m.
Definition nTime (h : CBlockHeader) : Z :=
  let 'mkCBlockHeader _ _ _ t _ _ _ := h in t.
Definition nBits (h : CBlockHeader) : Z :=
  let 'mkCBlockHeader _ _ _ _ b _ _ := h in b.
Definition nNonce (h : CBlockHeader) : Z :=
  let 'mkCBlockHeader _ _ _ _ _ n _ := h in n.
Definition auxpow (h : CBlockHeader) : option CAuxPow :=
  let 'mkCBlockHeader _ _ _ _ _ _ a := h in a.

Definition tx (a : CAuxPow) : CTransaction :=
  let 'mkCAuxPow t _ _ _ _ _ _ := a in t.
Definition hashBlock (a : CAuxPow) : uint256 :=
  let 'mkCAuxPow _ h _ _ _ _ _ := a in h.
Definition vMerkleBranch (a : CAuxPow) : list uint256 :=
  let 'mkCAuxPow _ _ b _ _ _ _ := a in b.
Definition nIndex (a : CAuxPow) : Z :=
  let 'mkCAuxPow _ _ _ i _ _ _ := a in i.
Definition vChainMerkleBranch (a : CAuxPow) : list uint256 :=
  let 'mkCAuxPow _ _ _ _ b _ _ := a in b.
Definition nChainIndex (a : CAuxPow) : Z :=
  let 'mkCAuxPow _ _ _ _ _ i _ := a in i.
Definition parentBlock (a : CAuxPow) : CBlockHeader :=
  let 'mkCAuxPow _ _ _ _ _ _ p := a in p.

Module Header.

Import Ser.

Definition VERSION_AUXPOW : Z := Z.shiftl 1 8.

(** [SetNull]. *)
Definition null : CBlockHeader :=
  mkCBlockHeader 0 uint256_null uint256_null 0 0 0 None.

Definition IsNull (h : CBlockHeader) : bool := nBits h =? 0.

Definition GetBaseVersion (h : CBlockHeader) : Z := Z.land (nVersion h) 255.

Definition GetChainId (h : CBlockHeader) : Z := Z.shiftr (nVersion h) 16.

Definition IsAuxpow (h : CBlockHeader) : bool :=
  negb (Z.land (nVersion h) VERSION_AUXPOW =? 0).

Definition IsLegacy (h : CBlockHeader) : bool :=
  (nVersion h =? 1) || ((nVersion h =? 2) && (GetChainId h =? 0)).

(** The six fields every stream type carries: the preimage of the hash. *)
Definition preimage (h : CBlockHeader) : list byte :=
  ser_i32 (nVersion h) ++ ser_uint256 (hashPrevBlock h)
    ++ ser_uint256 (hashMerkleRoot h)
    ++ ser_u32 (nTime h) ++ ser_u32 (nBits h) ++ ser_u32 (nNonce h).

(** [CAuxPow::SerializationOp], writing. *)
Definition ser_auxpow (a : CAuxPow) : list byte :=
  Tx.serialize (tx a) ++ ser_uint256 (hashBlock a)
    ++ ser_vector ser_uint256 (vMerkleBranch a) ++ ser_i32 (nIndex a)
    ++ ser_vector ser_uint256 (vChainMerkleBranch a) ++ ser_i32 (nChainIndex a)
    ++ ser_i32 (nVersion (parentBlock a))
    ++ ser_uint256 (hashPrevBlock (parentBlock a))
    ++ ser_uint256 (hashMerkleRoot (parentBlock a))
    ++ ser_u32 (nTime (parentBlock a)) ++ ser_u32 (nBits (parentBlock a))
    ++ ser_u32 (nNonce (parentBlock a)).

(** [CBlockHeader::SerializationOp], writing to a stream of type [nType];
    [None] is the failure of [assert(auxpow)]. *)
Definition Serialize (nType : Z) (h : CBlockHeader) : option (list byte) :=
  if negb (negb (Z.land nType SER_GETHASH =? 0)) then
    if IsAuxpow h then
      match auxpow h with
      | Some a => Some (preimage h ++ ser_auxpow a)
      | None => None
      end
    else Some (preimage h)
  else Some (preimage h).

(** Modelled from the spec: [SerializeHash] of hash.h is missing; section
    4.5 has the header hash as the double SHA-256 of what the header writes
    to a hash-preimage ([SER_GETHASH]) stream. *)
Definition SerializeHash (h : CBlockHeader) : uint256 :=
  match Serialize SER_GETHASH h with
  | Some bs => Crypto.dsha256 bs
  | None => uint256_null
  end.

Definition GetHash (h : CBlockHeader) : uint256 := SerializeHash h.

End Header.

Record CBlock := { header : CBlockHeader; vtx : list CTransaction; fChecked : bool }.

(** Modelled from the spec: consensus/merkle.h is missing; the root of the
    transaction tree, paired level by level with the last hash doubled. *)
Fixpoint merkle_level (l : list uint256) : list uint256 :=
  match l with
  | a :: b :: r => Hash a b :: merkle_level r
  | [a] => [Hash a a]
  | [] => []
  end.

Fixpoint ComputeMerkleRoot (fuel : nat) (l : list uint256) : uint256 :=
  match l with
  | [] => uint256_null
  | [a] => a
  | _ => match fuel with
         | O => uint256_null
         | S f => ComputeMerkleRoot f (merkle_level l)
         end
  end.

Definition BlockMerkleRoot (b : CBlock) : uint256 :=
  ComputeMerkleRoot (length (vtx b)) (map Tx.GetHash (vtx b)).

(** ** The AuxPoW validator (primitives/block.cpp) *)

(** One constructor per [error("...")] of [CAuxPow::check]. *)
Inductive AuxError : Type :=
| NotAGenerate
| ParentHasOurChainId
| ChainBranchTooLong
| MerkleRootIncorrect
| MissingChainMerkleRoot
| MultipleMergedMiningHeaders
| HeaderNotJustBeforeRoot
| RootMustStartInFirst20Bytes
| ChainMerkleSizeMissing
| MerkleBranchSizeMismatch
| WrongIndex.

Definition error_message (e : AuxError) : string :=
  match e with
  | NotAGenerate => "AuxPow is not a generate"
  | ParentHasOurChainId => "Aux POW parent has our chain ID"
  | ChainBranchTooLong => "Aux POW chain merkle branch too long"
  | MerkleRootIncorrect => "Aux POW merkle root incorrect"
  | MissingChainMerkleRoot => "Aux POW missing chain merkle root in parent coinbase"
  | MultipleMergedMiningHeaders => "Multiple merged mining headers in coinbase"
  | HeaderNotJustBeforeRoot =>
      "Merged mining header is not just before chain merkle root"
  | RootMustStartInFirst20Bytes =>
      "Aux POW chain merkle root must start in the first 20 bytes of the parent coinbase"
  | ChainMerkleSizeMissing =>
      "Aux POW missing chain merkle tree size and nonce in parent coinbase"
  | MerkleBranchSizeMismatch =>
      "Aux POW merkle branch size does not match parent coinbase"
  | WrongIndex => "Aux POW wrong index"
  end.

(** What a call of [check] comes to: [return true], [return error(...)]
    (which logs the message and returns false), or undefined behaviour
    ([tx->vin[0]] of a transaction without inputs). *)
Inductive verdict : Type :=
| Accept
| Reject (e : AuxError)
| Undefined.

Definition returns (v : verdict) : option bool :=
  match v with
  | Accept => Some true
  | Reject _ => Some false
  | Undefined => None
  end.

(** [std::search] on byte ranges, as offsets: the offset of the first
    occurrence of [pat] in [s], and [length s] (the end iterator) if there
    is none. *)
Fixpoint starts_with (pat s : list byte) : bool :=
  match pat, s with
  | [], _ => true
  | _ :: _, [] => false
  | p :: pat', c :: s' => Byte.eqb p c && starts_with pat' s'
  end.

Fixpoint search (s pat : list byte) : nat :=
  if starts_with pat s then O
  else match s with
       | [] => O
       | _ :: s' => S (search s' pat)
       end.

(** [memcpy] of four bytes at offset [pos] followed by [le32toh]. *)
Definition read_le32 (s : list byte) (pos : nat) : Z :=
  le_combine (firstn 4 (skipn pos s)).

Definition pchMergedHdr : list byte :=
  [byte.of_Z 250; byte.of_Z 190; byte_of_ascii "m"; byte_of_ascii "m"].

Module Block.

Import Int Header.

Fixpoint merkle_fold (hash : uint256) (branch : list uint256) (nIndex : Z)
  : uint256 :=
  match branch with
  | [] => hash
  | it :: rest =>
      merkle_fold (if negb (Z.land nIndex 1 =? 0) then Hash it hash
                   else Hash hash it)
                  rest (Z.shiftr nIndex 1)
  end.

Definition CheckMerkleBranch (hash : uint256) (vMerkleBranch : list uint256)
           (nIndex : Z) : uint256 :=
  if nIndex =? -1 then uint256_null
  else merkle_fold hash vMerkleBranch nIndex.

(** [1 << h] is an [int]; the source is defined for [h <= 30] (and, from
    C++20 on, for [h = 31]), which is all [check] asks for. *)
Definition getExpectedIndex (nNonce nChainId h : Z) : Z :=
  let rand := nNonce in
  let rand := u32 (rand * 1103515245 + 12345) in
  let rand := u32 (rand + nChainId) in
  let rand := u32 (rand * 1103515245 + 12345) in
  i32 (rand mod u32 (i32 (Z.shiftl 1 h))).

(** Lines 109-128: the tree size and the nonce after the root, at offset
    [pc] of the script. *)
Definition check_size_nonce (a : CAuxPow) (nChainId : Z) (script : CScript)
           (pc : nat) : verdict :=
  if Z.of_nat (length script) - Z.of_nat pc <? 8
  then Reject ChainMerkleSizeMissing
  else
    let nSize := read_le32 script pc in
    let merkleHeight := Z.of_nat (length (vChainMerkleBranch a)) in
    if negb (nSize =? u32 (Z.shiftl 1 merkleHeight))
    then Reject MerkleBranchSizeMismatch
    else
      let nNonce := read_le32 script (pc + 4) in
      if negb (nChainIndex a =? getExpectedIndex nNonce nChainId merkleHeight)
      then Reject WrongIndex
      else Accept.

(** Lines 89-107 and on: the magic and the root in the coinbase script. *)
Definition check_script (a : CAuxPow) (nChainId : Z) (script : CScript)
           (vchRootHash : list byte) : verdict :=
  let script_end := length script in
  let pcHead := search script pchMergedHdr in
  let pc := search script vchRootHash in
  if (pc =? script_end)%nat then Reject MissingChainMerkleRoot
  else
    let position :=
      if negb (pcHead =? script_end)%nat then
        let rest := skipn (pcHead + 1) script in
        if negb (length rest =? search rest pchMergedHdr)%nat
        then Some MultipleMergedMiningHeaders
        else if negb (pcHead + length pchMergedHdr =? pc)%nat
             then Some HeaderNotJustBeforeRoot
             else None
      else
        if (20 <? pc)%nat then Some RootMustStartInFirst20Bytes else None in
    match position with
    | Some e => Reject e
    | None => check_size_nonce a nChainId script (pc + length vchRootHash)
    end.

Definition check (a : CAuxPow) (hashAuxBlock : uint256) (nChainId : Z)
           (params : Consensus.Params) : verdict :=
  if negb (nIndex a =? 0) then Reject NotAGenerate
  else if Consensus.fStrictChainId params
          && (GetChainId (parentBlock a) =? nChainId)
  then Reject ParentHasOurChainId
  else if 30 <? Z.of_nat (length (vChainMerkleBranch a))
  then Reject ChainBranchTooLong
  else
    let nRootHash :=
      CheckMerkleBranch hashAuxBlock (vChainMerkleBranch a) (nChainIndex a) in
    let vchRootHash := rev nRootHash in
    if negb (uint256_eqb
               (CheckMerkleBranch (Tx.GetHash (tx a)) (vMerkleBranch a) (nIndex a))
               (hashMerkleRoot (parentBlock a)))
    then Reject MerkleRootIncorrect
    else
      match vin (tx a) with
      | [] => Undefined
      | txin0 :: _ => check_script a nChainId (scriptSig txin0) vchRootHash
      end.

End Block.

(** ** The superseded validator (primitives/block__.cpp)

    The file carries its own copies of [CheckMerkleBranch] and
    [getExpectedIndex]; its [check] has no test of [nIndex] and hands the
    literal 0 to the Merkle verifier. *)

Module Block__.

Import Int Header.

Fixpoint merkle_fold (hash : uint256) (branch : list uint256) (nIndex : Z)
  : uint256 :=
  match branch with
  | [] => hash
  | it :: rest =>
      merkle_fold (if negb (Z.land nIndex 1 =? 0) then Hash it hash
                   else Hash hash it)
                  rest (Z.shiftr nIndex 1)
  end.

Definition CheckMerkleBranch (hash : uint256) (vMerkleBranch : list uint256)
           (nIndex : Z) : uint256 :=
  if nIndex =? -1 then uint256_null
  else merkle_fold hash vMerkleBranch nIndex.

(** [1 << h] is an [int]; the source is defined for [h <= 30] (and, from
    C++20 on, for [h = 31]), which is all [check] asks for. *)
Definition getExpectedIndex (nNonce nChainId h : Z) : Z :=
  let rand := nNonce in
  let rand := u32 (rand * 1103515245 + 12345) in
  let rand := u32 (rand + nChainId) in
  let rand := u32 (rand * 1103515245 + 12345) in
  i32 (rand mod u32 (i32 (Z.shiftl 1 h))).

(** Lines 149-168: the tree size and the nonce after the root, at offset
    [pc] of the script. *)
Definition check_size_nonce (a : CAuxPow) (nChainId : Z) (script : CScript)
           (pc : nat) : verdict :=
  if Z.of_nat (length script) - Z.of_nat pc <? 8
  then Reject ChainMerkleSizeMissing
  else
    let nSize := read_le32 script pc in
    let merkleHeight := Z.of_nat (length (vChainMerkleBranch a)) in
    if negb (nSize =? u32 (Z.shiftl 1 merkleHeight))
    then Reject MerkleBranchSizeMismatch
    else
      let nNonce := read_le32 script (pc + 4) in
      if negb (nChainIndex a =? getExpectedIndex nNonce nChainId merkleHeight)
      then Reject WrongIndex
      else Accept.

(** Lines 129-147 and on: the magic and the root in the coinbase script. *)
Definition check_script (a : CAuxPow) (nChainId : Z) (script : CScript)
           (vchRootHash : list byte) : verdict :=
  let script_end := length script in
  let pcHead := search script pchMergedHdr in
  let pc := search script vchRootHash in
  if (pc =? script_end)%nat then Reject MissingChainMerkleRoot
  else
    let position :=
      if negb (pcHead =? script_end)%nat then
        let rest := skipn (pcHead + 1) script in
        if negb (length rest =? search rest pchMergedHdr)%nat
        then Some MultipleMergedMiningHeaders
        else if negb (pcHead + length pchMergedHdr =? pc)%nat
             then Some HeaderNotJustBeforeRoot
             else None
      else
        if (20 <? pc)%nat then Some RootMustStartInFirst20Bytes else None in
    match position with
    | Some e => Reject e
    | None => check_size_nonce a nChainId script (pc + length vchRootHash)
    end.

Definition check (a : CAuxPow) (hashAuxBlock : uint256) (nChainId : Z)
           (params : Consensus.Params) : verdict :=
  if Consensus.fStrictChainId params
          && (GetChainId (parentBlock a) =? nChainId)
  then Reject ParentHasOurChainId
  else if 30 <? Z.of_nat (length (vChainMerkleBranch a))
  then Reject ChainBranchTooLong
  else
    let nRootHash :=
      CheckMerkleBranch hashAuxBlock (vChainMerkleBranch a) (nChainIndex a) in
    let vchRootHash := rev nRootHash in
    if negb (uint256_eqb
               (CheckMerkleBranch (Tx.GetHash (tx a)) (vMerkleBranch a) 0)
               (hashMerkleRoot (parentBlock a)))
    then Reject MerkleRootIncorrect
    else
      match vin (tx a) with
      | [] => Undefined
      | txin0 :: _ => check_script a nChainId (scriptSig txin0) vchRootHash
      end.

End Block__.

(** ** Chain parameters (amount.h, chainparams.cpp) *)

Definition COIN : Z := 100000000.
Definition CENT : Z := 1000000.
Definition MAX_MONEY : Z := 10000000000 * COIN.
Definition MoneyRange (nValue : Z) : bool := (nValue >=? 0) && (nValue <=? MAX_MONEY).

Module ChainParams.

Import Script.

(** [CreateGenesisBlock] with a timestamp and an output script. *)
Definition CreateGenesisBlock_with (pszTimestamp : string)
           (genesisOutputScript : CScript)
           (nTime nNonce nBits nVersion genesisReward : Z) : CBlock :=
  let txNew :=
    {| tx_nVersion := 1;
       vin := [ {| prevout := prevout CTxIn_default;
                   scriptSig :=
                     push_data
                       (push_scriptnum (push_int64 [] 486604799) 4)
                       (bytes_of_string pszTimestamp);
                   nSequence := nSequence CTxIn_default |} ];
       vout := [ {| nValue := genesisReward;
                    scriptPubKey := genesisOutputScript |} ];
       nLockTime := 0 |} in
  let genesis :=
    {| header := mkCBlockHeader nVersion uint256_null uint256_null
                                nTime nBits nNonce None;
       vtx := [txNew];
       fChecked := false |} in
  {| header := mkCBlockHeader nVersion uint256_null (BlockMerkleRoot genesis)
                              nTime nBits nNonce None;
     vtx := vtx genesis;
     fChecked := false |}.

(** [ParseHex] of the 65-byte public key, most significant byte first. *)
Definition genesis_pubkey : list byte :=
  rev (le_split 65
    0x040184710fa689ad5023690c80f3a49c8f13f8d45b8c857fbcbc8bc4a8e4d3eb4b10f4d4604fa08dce601aaf0f470216fe1b51850b4acf21b179c45070ac7b03a9).

Definition CreateGenesisBlock (nTime nNonce nBits nVersion genesisReward : Z)
  : CBlock :=
  let pszTimestamp := "Nintondo"%string in
  let genesisOutputScript := push_opcode (push_data [] genesis_pubkey) OP_CHECKSIG in
  CreateGenesisBlock_with pszTimestamp genesisOutputScript
                          nTime nNonce nBits nVersion genesisReward.

Record CChainParams := {
  strNetworkID : string;
  consensus : Consensus.Params;
  genesis : CBlock
}.

Definition main_genesis : CBlock :=
  CreateGenesisBlock 1386325540 99943 0x1e0ffff0 1 (88 * COIN).

Definition CMainParams : CChainParams :=
  {| strNetworkID := "main";
     genesis := main_genesis;
     consensus :=
       {| Consensus.nSubsidyHalvingInterval := 100000;
          Consensus.BIP34Height := 1034383;
          Consensus.BIP34Hash :=
            uint256S 0x80d1364201e5df97e696c03bdd24dc885e8617b9de51e453c10a4f629b1e797a;
          Consensus.BIP65Height := 3464751;
          Consensus.BIP66Height := 1034383;
          Consensus.powLimit := Z.shiftr (2 ^ 256 - 1) 20;
          Consensus.nPowTargetTimespanBegin := 4 * 60 * 60;
          Consensus.nPowTargetSpacing := 60;
          Consensus.nCoinbaseMaturityBegin := 30;
          Consensus.fPowAllowMinDifficultyBlocks := false;
          Consensus.CSVHeight := 0;
          Consensus.WitnessHeight := 0;
          Consensus.nAuxpowChainId := 0x0062;
          Consensus.fStrictChainId := true;
          Consensus.DigishieldDifficultyCalculationHeight := 145000;
          Consensus.SimplifiedRewardsHeight := 145000;
          Consensus.PowTargetTimespan60Height := 145000;
          Consensus.CoinbaseMaturity240Height := 145000;
          Consensus.DisallowLegacyBlocksHeight := 371337;
          Consensus.nMinimumChainWork :=
            uint256S 0x0000000000000000000000000000000000000000000002f090e3e57191fd0703;
          Consensus.defaultAssumeValid :=
            uint256S 0x195a83b091fb3ee7ecb56f2e63d01709293f57f971ccf373d93890c8dc1033db;
          Consensus.hashGenesisBlock := Header.GetHash (header main_genesis) |} |}.

Definition test_genesis : CBlock :=
  CreateGenesisBlock 1391503289 997879 0x1e0ffff0 1 (88 * COIN).

Definition CTestNetParams : CChainParams :=
  {| strNetworkID := "test";
     genesis := test_genesis;
     consensus :=
       {| Consensus.nSubsidyHalvingInterval := 100000;
          Consensus.BIP34Height := 708658;
          Consensus.BIP34Hash :=
            uint256S 0x21b8b97dcdb94caa67c7f8f6dbf22e61e0cfe0e46e1fff3528b22864659e9b38;
          Consensus.BIP65Height := 1854705;
          Consensus.BIP66Height := 708658;
          Consensus.powLimit := Z.shiftr (2 ^ 256 - 1) 20;
          Consensus.nPowTargetTimespanBegin := 4 * 60 * 60;
          Consensus.nPowTargetSpacing := 60;
          Consensus.nCoinbaseMaturityBegin := 30;
          Consensus.fPowAllowMinDifficultyBlocks := true;
          Consensus.CSVHeight := 0;
          Consensus.WitnessHeight := 0;
          Consensus.nAuxpowChainId := 0x0062;
          Consensus.fStrictChainId := false;
          Consensus.DigishieldDifficultyCalculationHeight := 145000;
          Consensus.SimplifiedRewardsHeight := 145000;
          Consensus.PowTargetTimespan60Height := 145000;
          Consensus.CoinbaseMaturity240Height := 145000;
          Consensus.DisallowLegacyBlocksHeight := 158100;
          Consensus.nMinimumChainWork :=
            uint256S 0x00000000000000000000000000000000000000000000000000001030d1382ade;
          Consensus.defaultAssumeValid :=
            uint256S 0x6943eaeaba98dc7d09f7e73398daccb4abcabb18b66c8c875e52b07638d93951;
          Consensus.hashGenesisBlock := Header.GetHash (header test_genesis) |} |}.

Definition regtest_genesis : CBlock :=
  CreateGenesisBlock 1296688602 2 0x207fffff 1 (88 * COIN).

Definition CRegTestParams : CChainParams :=
  {| strNetworkID := "regtest";
     genesis := regtest_genesis;
     consensus :=
       {| Consensus.nSubsidyHalvingInterval := 150;
          Consensus.BIP34Height := 100000000;
          Consensus.BIP34Hash := uint256_null;
          Consensus.BIP65Height := 1251;
          Consensus.BIP66Height := 1251;
          Consensus.powLimit := Z.shiftr (2 ^ 256 - 1) 1;
          Consensus.nPowTargetTimespanBegin := 1;
          Consensus.nPowTargetSpacing := 1;
          Consensus.nCoinbaseMaturityBegin := 60;
          Consensus.fPowAllowMinDifficultyBlocks := true;
          Consensus.CSVHeight := 0;
          Consensus.WitnessHeight := 0;
          Consensus.nAuxpowChainId := 0x0062;
          Consensus.fStrictChainId := true;
          Consensus.DigishieldDifficultyCalculationHeight := 10;
          Consensus.SimplifiedRewardsHeight := 0;
          Consensus.PowTargetTimespan60Height := 100000;
          Consensus.CoinbaseMaturity240Height := 100000;
          Consensus.DisallowLegacyBlocksHeight := 20;
          Consensus.nMinimumChainWork := uint256S 0x00;
          Consensus.defaultAssumeValid := uint256S 0x00;
          Consensus.hashGenesisBlock := Header.GetHash (header regtest_genesis) |} |}.

(** [CreateChainParams]: the three networks; any other name throws. *)
Definition CreateChainParams (chain : string) : option CChainParams :=
  if String.eqb chain "main" then Some CMainParams
  else if String.eqb chain "test" then Some CTestNetParams
  else if String.eqb chain "regtest" then Some CRegTestParams
  else None.

End ChainParams.

(** ** Concrete inputs used by the examples below *)

Module Samples.

(** A default-constructed [CAuxPow()]: [nIndex] is -1, the transaction is
    empty; [nChainIndex] is left uninitialised by the constructor. *)
Definition CAuxPow_default (nChainIndex : Z) : CAuxPow :=
  mkCAuxPow CTransaction_empty uint256_null [] (-1) [] nChainIndex Header.null.

Definition hash_of_ones : uint256 := repeat (byte.of_Z 1) 32.

(** A parent header that claims chain id 0x62 itself. *)
Definition parent_same_chain : CBlockHeader :=
  mkCBlockHeader 0x00620002 uint256_null uint256_null 0 0 0 None.

Definition aux_same_chain : CAuxPow :=
  mkCAuxPow CTransaction_empty uint256_null [] 0 [] 0 parent_same_chain.

(** A version-2 header without chain id. *)
Definition parent_legacy_v2 : CBlockHeader :=
  mkCBlockHeader 2 uint256_null uint256_null 0 0 0 None.

(** A parent coinbase with the given first-input script, and an appendix
    around it: the coinbase is the only transaction of the parent block. *)
Definition input_with (script : CScript) : CTxIn :=
  {| prevout := prevout CTxIn_default;
     scriptSig := script;
     nSequence := nSequence CTxIn_default |}.

Definition coinbase_with (script : CScript) : CTransaction :=
  {| tx_nVersion := 1; vin := [input_with script]; vout := []; nLockTime := 0 |}.

Definition aux_with (script : CScript) (chain_branch : list uint256)
           (chain_index : Z) : CAuxPow :=
  let coinbase := coinbase_with script in
  mkCAuxPow coinbase uint256_null [] 0 chain_branch chain_index
            (mkCBlockHeader 1 uint256_null (Tx.GetHash coinbase) 0 0 0 None).

(** A tree of height 4 above the aux block [hash_of_ones]; the coinbase
    commits to the root computed for [chain_index], to 16 leaves and to
    the nonce 0. *)
Definition branch4 : list uint256 :=
  [repeat (byte.of_Z 2) 32; repeat (byte.of_Z 3) 32;
   repeat (byte.of_Z 4) 32; repeat (byte.of_Z 5) 32].

Definition root4 (chain_index : Z) : uint256 :=
  Block.CheckMerkleBranch hash_of_ones branch4 chain_index.

Definition script4 (chain_index : Z) : CScript :=
  pchMergedHdr ++ rev (root4 chain_index) ++ le_split 4 16 ++ le_split 4 0.

(** The two roots used below, evaluated once. *)
Definition root4_at_3 : uint256 := Eval vm_compute in root4 3.
Definition root4_at_8 : uint256 := Eval vm_compute in root4 8.

Definition aux4 (chain_index : Z) : CAuxPow :=
  aux_with (script4 chain_index) branch4 chain_index.

(** Scripts without the magic: a preamble of [n] bytes 0x07, the reversed
    root of the one-leaf tree, the size 1 and the nonce 0. *)
Definition preamble (n : nat) : list byte := repeat (byte.of_Z 7) n.

Definition trailer : list byte := le_split 4 1 ++ le_split 4 0.

Definition script_no_magic (n : nat) : CScript :=
  preamble n ++ rev hash_of_ones ++ trailer.

Definition aux_no_magic (n : nat) : CAuxPow := aux_with (script_no_magic n) [] 0.

(** Two headers with the AuxPoW bit set and the same six fields, one
    without an appendix and one with. *)
Definition header_bare : CBlockHeader :=
  mkCBlockHeader 0x00620102 uint256_null hash_of_ones 7 8 9 None.

Definition header_with_appendix : CBlockHeader :=
  mkCBlockHeader 0x00620102 uint256_null hash_of_ones 7 8 9
                 (Some (CAuxPow_default 0)).

Definition main_consensus : Consensus.Params :=
  ChainParams.consensus ChainParams.CMainParams.

End Samples.

(** ** Further operations of the header (primitives/block.h) *)

Module HeaderOps.

Import Int Header.

(** The header with another version, all else kept. *)
Definition with_nVersion (h : CBlockHeader) (v : Z) : CBlockHeader :=
  mkCBlockHeader v (hashPrevBlock h) (hashMerkleRoot h)
                 (nTime h) (nBits h) (nNonce h) (auxpow h).

(** [SetBaseVersion]; [None] is the failure of one of its two assertions.
    The shift is an [int] shift. *)
Definition SetBaseVersion (h : CBlockHeader) (nBaseVersion nChainId : Z)
  : option CBlockHeader :=
  if (nBaseVersion >=? 1) && (nBaseVersion <? VERSION_AUXPOW) then
    if negb (IsAuxpow h) then
      Some (with_nVersion h (Z.lor nBaseVersion (i32 (Z.shiftl nChainId 16))))
    else None
  else None.

(** The header with another appendix pointer, all else kept. *)
Definition with_auxpow (h : CBlockHeader) (a : option CAuxPow) : CBlockHeader :=
  mkCBlockHeader (nVersion h) (hashPrevBlock h) (hashMerkleRoot h)
                 (nTime h) (nBits h) (nNonce h) a.

(** [GetBlockTime]. *)
Definition GetBlockTime (h : CBlockHeader) : Z := nTime h.

(** Reading [n] bytes off a stream; [None] is the exception of a stream
    that ends early. *)
Definition read_bytes (n : nat) (bs : list byte) : option (list byte * list byte) :=
  if (n <=? length bs)%nat then Some (firstn n bs, skipn n bs) else None.

Definition read_u32 (bs : list byte) : option (Z * list byte) :=
  match read_bytes 4 bs with
  | Some (b, r) => Some (le_combine b, r)
  | None => None
  end.

Definition read_i32 (bs : list byte) : option (Z * list byte) :=
  match read_bytes 4 bs with
  | Some (b, r) => Some (i32 (le_combine b), r)
  | None => None
  end.

Definition read_uint256 (bs : list byte) : option (uint256 * list byte) :=
  read_bytes 32 bs.

(** [CBlockHeader::SerializationOp], reading from a stream of type [nType]
    into a header whose appendix pointer was [this_auxpow].
    [Unserialize_CAuxPow] stands for [READWRITE( *auxpow)] on the fresh
    [CAuxPow()] of [SetAuxpowInitDef]: it needs the transaction decoder,
    which is not in the sources at hand. *)
Definition Unserialize
           (Unserialize_CAuxPow : list byte -> option (CAuxPow * list byte))
           (nType : Z) (this_auxpow : option CAuxPow) (bs : list byte)
  : option (CBlockHeader * list byte) :=
  match read_i32 bs with
  | None => None
  | Some (v, bs) =>
  match read_uint256 bs with
  | None => None
  | Some (prev, bs) =>
  match read_uint256 bs with
  | None => None
  | Some (root, bs) =>
  match read_u32 bs with
  | None => None
  | Some (time, bs) =>
  match read_u32 bs with
  | None => None
  | Some (bits, bs) =>
  match read_u32 bs with
  | None => None
  | Some (nonce, bs) =>
      let h := mkCBlockHeader v prev root time bits nonce this_auxpow in
      if negb (negb (Z.land nType Ser.SER_GETHASH =? 0)) then
        if IsAuxpow h then
          match Unserialize_CAuxPow bs with
          | Some (a, bs) => Some (mkCBlockHeader v prev root time bits nonce (Some a), bs)
          | None => None
          end
        else Some (mkCBlockHeader v prev root time bits nonce None, bs)
      else Some (h, bs)
  end end end end end end.

(** The ranges of the fields' C++ types. *)
Definition well_typed (h : CBlockHeader) : Prop :=
  - 2 ^ 31 <= nVersion h < 2 ^ 31 /\
  length (hashPrevBlock h) = 32%nat /\
  length (hashMerkleRoot h) = 32%nat /\
  0 <= nTime h < 2 ^ 32 /\
  0 <= nBits h < 2 ^ 32 /\
  0 <= nNonce h < 2 ^ 32.

End HeaderOps.

(** ** Building a minimal appendix (primitives/block__.cpp) *)

Module Block__Build.

(** [SetAuxpow]. [SetAuxpowFlag] is declared in a version of block.h that
    is not among the sources at hand, so it is a parameter. *)
Definition SetAuxpow (SetAuxpowFlag : bool -> CBlockHeader -> CBlockHeader)
           (h : CBlockHeader) (apow : option CAuxPow) : CBlockHeader :=
  match apow with
  | Some _ => SetAuxpowFlag true (HeaderOps.with_auxpow h apow)
  | None => SetAuxpowFlag false (HeaderOps.with_auxpow h None)
  end.

(** The script input of [buildSimpleAuxPow]: the reversed block hash, a
    byte 1 and seven bytes 0. *)
Definition inputData (blockHash : uint256) : list byte :=
  rev blockHash ++ [byte.of_Z 1] ++ repeat (byte.of_Z 0) 7.

(** [buildSimpleAuxPow]. [CURRENT_VERSION] is the version a
    [CMutableTransaction] starts with (primitives/transaction.h, not among
    the sources). The appendix starts as [CAuxPow()], whose [nIndex] is -1,
    and the function sets the fields below only. *)
Definition buildSimpleAuxPow
           (SetAuxpowFlag : bool -> CBlockHeader -> CBlockHeader)
           (CURRENT_VERSION : Z) (h : CBlockHeader) : CBlockHeader :=
  let blockHash := Header.GetHash h in
  let coinbase :=
    {| tx_nVersion := CURRENT_VERSION;
       vin := [ {| prevout := {| outpoint_hash := uint256_null;
                                 outpoint_n := 4294967295 |};
                   scriptSig := Script.push_data [] (inputData blockHash);
                   nSequence := nSequence CTxIn_default |} ];
       vout := [];
       nLockTime := 0 |} in
  let parent :=
    {| header := mkCBlockHeader 1 uint256_null uint256_null 0 0 0 None;
       vtx := [coinbase];
       fChecked := false |} in
  let parentBlock :=
    mkCBlockHeader 1 uint256_null (BlockMerkleRoot parent) 0 0 0 None in
  HeaderOps.with_auxpow
    (SetAuxpowFlag true h)
    (Some (mkCAuxPow coinbase uint256_null [] (-1) [] 0 parentBlock)).

End Block__Build.

(** ** More concrete inputs for the examples *)

Module Samples2.

Import Samples.

(** The offsets up to the end of [s] at which [pat] occurs. *)
Definition occurrences (pat s : list byte) : list nat :=
  filter (fun k => starts_with pat (skipn k s)) (seq 0 (S (length s))).

(** Magic after a preamble longer than 20 bytes, then the root, the size 1
    and the nonce 0. *)
Definition script_magic : CScript :=
  preamble 25 ++ pchMergedHdr ++ rev hash_of_ones ++ trailer.

(** No root at all. *)
Definition script_missing : CScript := preamble 10.

(** A second magic after the trailer. *)
Definition script_two_magics : CScript :=
  pchMergedHdr ++ rev hash_of_ones ++ trailer ++ pchMergedHdr.

(** One byte between the magic and the root. *)
Definition script_gap : CScript :=
  pchMergedHdr ++ [byte.of_Z 7] ++ rev hash_of_ones ++ trailer.

(** Legacy layouts with a short trailer and with the size 2. *)
Definition short_trailer : list byte := [byte.of_Z 1; byte.of_Z 0; byte.of_Z 0].
Definition script_short : CScript := preamble 5 ++ rev hash_of_ones ++ short_trailer.

Definition wrong_trailer : list byte := le_split 4 2 ++ le_split 4 0.
Definition script_wrong_size : CScript :=
  preamble 5 ++ rev hash_of_ones ++ wrong_trailer.

(** The appendix of [aux_no_magic 20] with another block hash hint and
    other parent fields that [check] does not read. *)
Definition aux_other_fields : CAuxPow :=
  let coinbase := coinbase_with (script_no_magic 20) in
  mkCAuxPow coinbase hash_of_ones [] 0 [] 0
            (mkCBlockHeader 1 hash_of_ones (Tx.GetHash coinbase) 5 6 7
                            (Some (CAuxPow_default 0))).

(** A reader of appendices that always fails. *)
Definition no_appendix_reader (bs : list byte) : option (CAuxPow * list byte) :=
  None.

(** [SetAuxpowFlag] as setting or clearing version bit 8. *)
Definition flag_bit8 (on : bool) (h : CBlockHeader) : CBlockHeader :=
  HeaderOps.with_nVersion h
    (if on then Z.lor (nVersion h) 256 else Z.land (nVersion h) (Z.lnot 256)).

End Samples2.

(** * Properties *)

(** ** The coinbase index *)

(** C1: an appendix whose coinbase Merkle index [nIndex] is not zero is
    rejected by [CAuxPow::check] of block.cpp with "AuxPow is not a
    generate", whatever its other fields, the aux block hash, the chain id
    and the parameters. *)
Theorem check_nonzero_index_not_a_generate :
  forall (a : CAuxPow) (hashAuxBlock : uint256) (nChainId : Z)
         (params : Consensus.Params),
    nIndex a <> 0 ->
    Block.check a hashAuxBlock nChainId params = Reject NotAGenerate.
Proof.
  intros a hashAuxBlock nChainId params Hidx.
  unfold Block.check.
  destruct (nIndex a =? 0) eqn:E.
  - apply Z.eqb_eq in E. contradiction.
  - reflexivity.
Qed.

Lemma check_nonzero_index_not_a_generate_witness :
  nIndex (Samples.CAuxPow_default 0) <> 0 /\
  Block.check (Samples.CAuxPow_default 0) Samples.hash_of_ones 98
              Samples.main_consensus = Reject NotAGenerate.
Proof.
  split.
  - simpl. lia.
  - apply check_nonzero_index_not_a_generate. simpl. lia.
Defined.

(** The two files' copies of the Merkle verifier and of the index function
    are the same functions. *)
Lemma CheckMerkleBranch_copies :
  forall hash branch i,
    Block__.CheckMerkleBranch hash branch i = Block.CheckMerkleBranch hash branch i.
Proof.
  intros hash branch i. unfold Block__.CheckMerkleBranch, Block.CheckMerkleBranch.
  destruct (i =? -1); [reflexivity|].
  revert hash i. induction branch as [|it rest IH]; intros hash i; simpl.
  - reflexivity.
  - apply IH.
Qed.

Lemma getExpectedIndex_copies :
  forall nNonce nChainId h,
    Block__.getExpectedIndex nNonce nChainId h
    = Block.getExpectedIndex nNonce nChainId h.
Proof. reflexivity. Qed.

Lemma check_script_copies :
  forall a nChainId script root,
    Block__.check_script a nChainId script root
    = Block.check_script a nChainId script root.
Proof.
  intros a nChainId script root.
  unfold Block__.check_script, Block.check_script,
    Block__.check_size_nonce, Block.check_size_nonce.
  destruct (search script root =? length script)%nat; [reflexivity|].
  destruct (if negb (search script pchMergedHdr =? length script)%nat
            then _ else _); [reflexivity|].
  destruct (_ <? 8); [reflexivity|].
  destruct (negb (read_le32 script _ =? _)); [reflexivity|].
  rewrite getExpectedIndex_copies. reflexivity.
Qed.

(** C2: on an appendix whose [nIndex] is 0 the [check] of block.cpp and the
    [check] of block__.cpp come to the same verdict, for the same aux block
    hash, chain id and parameters. *)
Theorem check_variants_agree_on_index_zero :
  forall (a : CAuxPow) (hashAuxBlock : uint256) (nChainId : Z)
         (params : Consensus.Params),
    nIndex a = 0 ->
    Block.check a hashAuxBlock nChainId params
    = Block__.check a hashAuxBlock nChainId params.
Proof.
  intros a hashAuxBlock nChainId params Hidx.
  unfold Block.check, Block__.check.
  rewrite Hidx. cbn [Z.eqb negb].
  pose proof (CheckMerkleBranch_copies hashAuxBlock (vChainMerkleBranch a)
                                       (nChainIndex a)) as Eroot.
  pose proof (CheckMerkleBranch_copies (Tx.GetHash (tx a)) (vMerkleBranch a) 0)
    as Ecoinbase.
  set (r1 := Block.CheckMerkleBranch hashAuxBlock _ _) in *.
  set (c1 := Block.CheckMerkleBranch (Tx.GetHash (tx a)) _ _) in *.
  clearbody r1 c1. rewrite Eroot, Ecoinbase.
  destruct (Consensus.fStrictChainId params
            && (Header.GetChainId (parentBlock a) =? nChainId)); [reflexivity|].
  destruct (30 <? Z.of_nat (length (vChainMerkleBranch a))); [reflexivity|].
  destruct (negb (uint256_eqb _ _)); [reflexivity|].
  destruct (vin (tx a)); [reflexivity|].
  symmetry. apply check_script_copies.
Qed.

Lemma check_variants_agree_on_index_zero_witness :
  nIndex Samples.aux_same_chain = 0 /\
  Block.check Samples.aux_same_chain Samples.hash_of_ones 98 Samples.main_consensus
  = Block__.check Samples.aux_same_chain Samples.hash_of_ones 98
                  Samples.main_consensus.
Proof.
  split.
  - reflexivity.
  - apply check_variants_agree_on_index_zero. reflexivity.
Defined.

(** ** The parent's chain id *)

(** C8: with [fStrictChainId] set, an appendix that passed the coinbase
    index test and whose parent header carries our chain id
    ([nVersion >> 16] of the parent) is rejected with "Aux POW parent has
    our chain ID". *)
Theorem check_strict_parent_with_our_chain_id :
  forall (a : CAuxPow) (hashAuxBlock : uint256) (nChainId : Z)
         (params : Consensus.Params),
    Consensus.fStrictChainId params = true ->
    nIndex a = 0 ->
    Z.shiftr (nVersion (parentBlock a)) 16 = nChainId ->
    Header.GetChainId (parentBlock a) = nChainId /\
    Block.check a hashAuxBlock nChainId params = Reject ParentHasOurChainId.
Proof.
  intros a hashAuxBlock nChainId params Hstrict Hidx Hid.
  split; [exact Hid|].
  unfold Block.check, Header.GetChainId.
  rewrite Hidx, Hstrict, Hid, !Z.eqb_refl. reflexivity.
Qed.

Lemma check_strict_parent_with_our_chain_id_witness :
  Header.GetChainId (parentBlock Samples.aux_same_chain) = 98 /\
  Block.check Samples.aux_same_chain Samples.hash_of_ones 98 Samples.main_consensus
  = Reject ParentHasOurChainId.
Proof.
  apply check_strict_parent_with_our_chain_id; reflexivity.
Defined.

(** ** Version flags *)

(** C10: no version value makes a header both legacy and AuxPoW: a header
    of version 1, or of version 2 with chain id 0, has version bit 8
    (0x100) clear. *)
Theorem legacy_excludes_auxpow :
  forall h : CBlockHeader,
    Header.IsLegacy h && Header.IsAuxpow h = false /\
    (nVersion h = 1 \/ (nVersion h = 2 /\ Header.GetChainId h = 0) ->
     Z.land (nVersion h) 0x100 = 0 /\ Header.IsAuxpow h = false).
Proof.
  intros h.
  assert (Hbit : nVersion h = 1 \/ nVersion h = 2 ->
                 Z.land (nVersion h) 0x100 = 0 /\ Header.IsAuxpow h = false).
  { unfold Header.IsAuxpow, Header.VERSION_AUXPOW.
    intros [E | E]; rewrite E; split; reflexivity. }
  split.
  - unfold Header.IsLegacy.
    destruct (nVersion h =? 1) eqn:E1.
    + apply Z.eqb_eq in E1. destruct Hbit as [_ Ha]; [left; exact E1|].
      rewrite Ha. apply andb_false_r.
    + destruct (nVersion h =? 2) eqn:E2.
      * apply Z.eqb_eq in E2. destruct Hbit as [_ Ha]; [right; exact E2|].
        rewrite Ha. apply andb_false_r.
      * reflexivity.
  - intros [E | [E _]]; apply Hbit; [left | right]; exact E.
Qed.

Lemma legacy_excludes_auxpow_witness :
  Header.IsLegacy Samples.parent_legacy_v2 && Header.IsAuxpow Samples.parent_legacy_v2
  = false /\
  Z.land (nVersion Samples.parent_legacy_v2) 0x100 = 0 /\
  Header.IsAuxpow Samples.parent_legacy_v2 = false.
Proof.
  split.
  - exact (proj1 (legacy_excludes_auxpow Samples.parent_legacy_v2)).
  - apply (proj2 (legacy_excludes_auxpow Samples.parent_legacy_v2)).
    right. split; reflexivity.
Defined.

(** ** The Merkle verifier *)

(** C6, as the code has it: with an empty branch [CheckMerkleBranch] gives
    the leaf back for every index other than -1; at the index -1 it gives
    the all-zero hash, whatever the leaf. *)
Theorem CheckMerkleBranch_empty_branch :
  forall (x : uint256) (i : Z),
    (i <> -1 -> Block.CheckMerkleBranch x [] i = x) /\
    (i = -1 -> Block.CheckMerkleBranch x [] i = uint256_null).
Proof.
  intros x i. unfold Block.CheckMerkleBranch. split; intros Hi.
  - destruct (i =? -1) eqn:E; [apply Z.eqb_eq in E; contradiction | reflexivity].
  - rewrite Hi. reflexivity.
Qed.

Lemma CheckMerkleBranch_empty_branch_witness :
  Block.CheckMerkleBranch Samples.hash_of_ones [] 5 = Samples.hash_of_ones /\
  Block.CheckMerkleBranch Samples.hash_of_ones [] (-1) = uint256_null.
Proof.
  split.
  - apply (CheckMerkleBranch_empty_branch Samples.hash_of_ones 5). lia.
  - apply (CheckMerkleBranch_empty_branch Samples.hash_of_ones (-1)). reflexivity.
Defined.

(** C6 as stated fails at the sentinel index: the leaf of 32 bytes 0x01
    with an empty branch and index -1 does not come back unchanged. *)
Lemma CheckMerkleBranch_empty_branch_sentinel :
  ~ (forall (x : uint256) (i : Z), Block.CheckMerkleBranch x [] i = x).
Proof.
  intros H. specialize (H Samples.hash_of_ones (-1)).
  vm_compute in H. discriminate H.
Qed.

(** ** The retarget timespan *)

Lemma nPowTargetTimespan_cases :
  forall (p : Consensus.Params) (h : Z),
    (h < Consensus.PowTargetTimespan60Height p ->
     Consensus.nPowTargetTimespan p h = Consensus.nPowTargetTimespanBegin p) /\
    (Consensus.PowTargetTimespan60Height p <= h ->
     Consensus.nPowTargetTimespan p h = 60).
Proof.
  intros p h. unfold Consensus.nPowTargetTimespan.
  destruct (Z.geb_spec h (Consensus.PowTargetTimespan60Height p)); split; intros;
    try reflexivity; lia.
Qed.

Lemma CreateChainParams_cases :
  forall chain p,
    ChainParams.CreateChainParams chain = Some p ->
    (chain = "main"%string /\ p = ChainParams.CMainParams) \/
    (chain = "test"%string /\ p = ChainParams.CTestNetParams) \/
    (chain = "regtest"%string /\ p = ChainParams.CRegTestParams).
Proof.
  intros chain p. unfold ChainParams.CreateChainParams.
  destruct (String.eqb_spec chain "main").
  { intros [= <-]. auto. }
  destruct (String.eqb_spec chain "test").
  { intros [= <-]. auto. }
  destruct (String.eqb_spec chain "regtest").
  { intros [= <-]. auto. }
  discriminate.
Qed.

(** C5, as the code has it: for each of the three networks the timespan is
    [nPowTargetTimespanBegin] below [PowTargetTimespan60Height] and 60 from
    it on, so it changes only from height [PowTargetTimespan60Height - 1]
    to [PowTargetTimespan60Height]; on main and test it never grows with
    the height, on regtest (1 before, 60 after) it never shrinks. *)
Theorem nPowTargetTimespan_single_transition :
  forall (chain : string) (p : ChainParams.CChainParams) (h : Z),
    ChainParams.CreateChainParams chain = Some p ->
    let c := ChainParams.consensus p in
    (h < Consensus.PowTargetTimespan60Height c ->
     Consensus.nPowTargetTimespan c h = Consensus.nPowTargetTimespanBegin c) /\
    (Consensus.PowTargetTimespan60Height c <= h ->
     Consensus.nPowTargetTimespan c h = 60) /\
    (Consensus.nPowTargetTimespan c (h + 1) <> Consensus.nPowTargetTimespan c h ->
     h + 1 = Consensus.PowTargetTimespan60Height c) /\
    (chain <> "regtest"%string ->
     Consensus.nPowTargetTimespan c (h + 1) <= Consensus.nPowTargetTimespan c h) /\
    (chain = "regtest"%string ->
     Consensus.nPowTargetTimespan c h <= Consensus.nPowTargetTimespan c (h + 1)).
Proof.
  intros chain p h Hsel c.
  destruct (nPowTargetTimespan_cases c h) as [Hlo Hhi].
  destruct (nPowTargetTimespan_cases c (h + 1)) as [Hlo' Hhi'].
  split; [exact Hlo|]. split; [exact Hhi|].
  split.
  - intros Hne.
    destruct (Z_lt_le_dec (h + 1) (Consensus.PowTargetTimespan60Height c)) as [L|L].
    + exfalso. apply Hne. rewrite Hlo', Hlo by lia. reflexivity.
    + destruct (Z_lt_le_dec h (Consensus.PowTargetTimespan60Height c)) as [L'|L'].
      * lia.
      * exfalso. apply Hne. rewrite Hhi', Hhi by lia. reflexivity.
  - destruct (CreateChainParams_cases chain p Hsel) as [[Hc Hp] | [[Hc Hp] | [Hc Hp]]];
      subst chain; subst c; subst p;
      unfold Consensus.nPowTargetTimespan;
      cbn [ChainParams.consensus ChainParams.CMainParams ChainParams.CTestNetParams
           ChainParams.CRegTestParams Consensus.PowTargetTimespan60Height
           Consensus.nPowTargetTimespanBegin];
      (split; [intros Hreg | intros Hreg]);
      try discriminate Hreg; try (exfalso; apply Hreg; reflexivity);
      destruct (Z.geb_spec (h + 1) 145000); destruct (Z.geb_spec h 145000);
      destruct (Z.geb_spec (h + 1) 100000); destruct (Z.geb_spec h 100000);
      lia.
Qed.

Lemma nPowTargetTimespan_single_transition_witness :
  Consensus.nPowTargetTimespan (ChainParams.consensus ChainParams.CMainParams) 144999
  = 14400 /\
  Consensus.nPowTargetTimespan (ChainParams.consensus ChainParams.CMainParams) 145000
  = 60 /\
  Consensus.nPowTargetTimespan (ChainParams.consensus ChainParams.CMainParams)
                               (144999 + 1)
  <= Consensus.nPowTargetTimespan (ChainParams.consensus ChainParams.CMainParams)
                                  144999.
Proof.
  pose proof (nPowTargetTimespan_single_transition
                "main" ChainParams.CMainParams 144999 eq_refl) as [Hlo [_ [_ [Hmon _]]]].
  pose proof (nPowTargetTimespan_single_transition
                "main" ChainParams.CMainParams 145000 eq_refl) as [_ [Hhi _]].
  split; [|split].
  - apply Hlo. simpl. lia.
  - apply Hhi. simpl. lia.
  - apply Hmon. discriminate.
Defined.

(** C5 as stated fails on regtest: from height 99999 to 100000 the timespan
    grows from 1 to 60. *)
Lemma nPowTargetTimespan_regtest_grows :
  ChainParams.CreateChainParams "regtest" = Some ChainParams.CRegTestParams /\
  ~ (Consensus.nPowTargetTimespan
       (ChainParams.consensus ChainParams.CRegTestParams) (99999 + 1)
     <= Consensus.nPowTargetTimespan
          (ChainParams.consensus ChainParams.CRegTestParams) 99999).
Proof.
  split; [reflexivity|].
  unfold Consensus.nPowTargetTimespan. simpl. lia.
Qed.

(** ** The header hash *)

Lemma Serialize_GETHASH :
  forall h : CBlockHeader,
    Header.Serialize Ser.SER_GETHASH h = Some (Header.preimage h).
Proof. intros h. reflexivity. Qed.

Lemma length_preimage :
  forall h : CBlockHeader,
    length (Header.preimage h)
    = (16 + length (hashPrevBlock h) + length (hashMerkleRoot h))%nat.
Proof.
  intros h. unfold Header.preimage, Ser.ser_i32, Ser.ser_u32, Ser.ser_uint256.
  rewrite !length_app, !length_le_split. lia.
Qed.

(** C3: [GetHash] is the double SHA-256 of 80 bytes, which are, in this
    order, the version (4 bytes, little-endian), the previous block hash
    (32 raw bytes), the Merkle root (32 raw bytes), the time, the bits and
    the nonce (4 bytes each, little-endian). Nothing else of the header
    enters the hash: two headers that agree on these six fields have the
    same hash, whatever their AuxPoW appendices. *)
Theorem GetHash_depends_on_preimage_only :
  forall h1 h2 : CBlockHeader,
    nVersion h1 = nVersion h2 ->
    hashPrevBlock h1 = hashPrevBlock h2 ->
    hashMerkleRoot h1 = hashMerkleRoot h2 ->
    nTime h1 = nTime h2 ->
    nBits h1 = nBits h2 ->
    nNonce h1 = nNonce h2 ->
    Header.GetHash h1
    = Crypto.dsha256
        (le_split 4 (nVersion h1) ++ hashPrevBlock h1 ++ hashMerkleRoot h1
           ++ le_split 4 (nTime h1) ++ le_split 4 (nBits h1)
           ++ le_split 4 (nNonce h1)) /\
    Header.GetHash h1 = Header.GetHash h2 /\
    (length (hashPrevBlock h1) = 32%nat -> length (hashMerkleRoot h1) = 32%nat ->
     length (le_split 4 (nVersion h1) ++ hashPrevBlock h1 ++ hashMerkleRoot h1
               ++ le_split 4 (nTime h1) ++ le_split 4 (nBits h1)
               ++ le_split 4 (nNonce h1)) = 80%nat).
Proof.
  intros h1 h2 Hv Hp Hm Ht Hb Hn.
  unfold Header.GetHash, Header.SerializeHash.
  rewrite !Serialize_GETHASH.
  split; [reflexivity|]. split.
  - unfold Header.preimage. rewrite Hv, Hp, Hm, Ht, Hb, Hn. reflexivity.
  - intros L1 L2. rewrite !length_app, !length_le_split, L1, L2. reflexivity.
Qed.

Lemma GetHash_depends_on_preimage_only_witness :
  Header.GetHash Samples.header_bare
  = Crypto.dsha256
      (map byte.of_Z
           ([2; 1; 98; 0] ++ repeat 0 32 ++ repeat 1 32
              ++ [7; 0; 0; 0] ++ [8; 0; 0; 0] ++ [9; 0; 0; 0])) /\
  Header.GetHash Samples.header_bare = Header.GetHash Samples.header_with_appendix /\
  length (map byte.of_Z
              ([2; 1; 98; 0] ++ repeat 0 32 ++ repeat 1 32
                 ++ [7; 0; 0; 0] ++ [8; 0; 0; 0] ++ [9; 0; 0; 0])) = 80%nat /\
  Header.GetHash Samples.header_with_appendix
  = uint256S 0x217e15d199a80ce2ad46e5e7228efced6035525e3e553220ceb6df003b286b64.
Proof.
  destruct (GetHash_depends_on_preimage_only
              Samples.header_bare Samples.header_with_appendix)
    as [Hd [He Hl]]; try reflexivity.
  assert (Hbytes :
    le_split 4 (nVersion Samples.header_bare)
      ++ hashPrevBlock Samples.header_bare ++ hashMerkleRoot Samples.header_bare
      ++ le_split 4 (nTime Samples.header_bare)
      ++ le_split 4 (nBits Samples.header_bare)
      ++ le_split 4 (nNonce Samples.header_bare)
    = map byte.of_Z
          ([2; 1; 98; 0] ++ repeat 0 32 ++ repeat 1 32
             ++ [7; 0; 0; 0] ++ [8; 0; 0; 0] ++ [9; 0; 0; 0]))
    by (vm_compute; reflexivity).
  rewrite Hbytes in Hd, Hl.
  split; [exact Hd|]. split; [exact He|].
  split; [apply Hl; reflexivity|].
  rewrite <- He, Hd. vm_compute. reflexivity.
Defined.

(** ** The expected index *)

Lemma u32_small : forall x, 0 <= x < 2 ^ 32 -> Int.u32 x = x.
Proof. intros x Hx. unfold Int.u32. apply Z.mod_small. exact Hx. Qed.

Lemma i32_small : forall x, - 2 ^ 31 <= x < 2 ^ 31 -> Int.i32 x = x.
Proof.
  intros x Hx. unfold Int.i32.
  rewrite Z.mod_small by lia. lia.
Qed.

Lemma pow2_le_30 : forall h, 0 <= h <= 30 -> 0 < 2 ^ h <= 2 ^ 30.
Proof.
  intros h Hh. split.
  - apply Z.pow_pos_nonneg; lia.
  - apply Z.pow_le_mono_r; lia.
Qed.

Lemma shift_one_u32 :
  forall h, 0 <= h <= 30 -> Int.u32 (Z.shiftl 1 h) = 2 ^ h.
Proof.
  intros h Hh. rewrite Z.shiftl_1_l.
  pose proof (pow2_le_30 h Hh) as B.
  apply u32_small. change (2 ^ 30) with 1073741824 in B.
  change (2 ^ 32) with 4294967296. lia.
Qed.

(** The generator step by step, with the wrap-around of every line, is the
    closed formula reduced once. *)
Lemma lcg_wrapping :
  forall nNonce nChainId : Z,
    Int.u32 (Int.u32 (Int.u32 (nNonce * 1103515245 + 12345) + nChainId)
             * 1103515245 + 12345)
    = (((nNonce * 1103515245 + 12345) + nChainId) * 1103515245 + 12345) mod 2 ^ 32.
Proof.
  intros nNonce nChainId. unfold Int.u32.
  rewrite Zplus_mod_idemp_l.
  rewrite <- (Zplus_mod_idemp_l (_ mod _ * _)).
  rewrite Zmult_mod_idemp_l.
  rewrite Zplus_mod_idemp_l. reflexivity.
Qed.

Lemma getExpectedIndex_formula :
  forall nNonce nChainId h : Z,
    0 <= h <= 30 ->
    Block.getExpectedIndex nNonce nChainId h
    = ((((nNonce * 1103515245 + 12345) + nChainId) * 1103515245 + 12345)
         mod 2 ^ 32) mod 2 ^ h.
Proof.
  intros nNonce nChainId h Hh. unfold Block.getExpectedIndex.
  cbv zeta. rewrite lcg_wrapping.
  pose proof (pow2_le_30 h Hh) as B. change (2 ^ 30) with 1073741824 in B.
  rewrite Z.shiftl_1_l.
  rewrite (i32_small (2 ^ h)) by (change (2 ^ 31) with 2147483648; lia).
  rewrite (u32_small (2 ^ h)) by (change (2 ^ 32) with 4294967296; lia).
  apply i32_small.
  set (r := _ mod 2 ^ 32).
  pose proof (Z.mod_pos_bound r (2 ^ h) ltac:(lia)).
  change (2 ^ 31) with 2147483648. lia.
Qed.

(** ** Through the checks of [CAuxPow::check] *)

Section EarlierChecks.

Variables (a : CAuxPow) (hashAuxBlock : uint256) (nChainId : Z)
          (params : Consensus.Params) (txin0 : CTxIn) (others : list CTxIn).

Hypothesis index_zero : nIndex a = 0.
Hypothesis parent_on_other_chain :
  Consensus.fStrictChainId params
  && (Header.GetChainId (parentBlock a) =? nChainId) = false.
Hypothesis branch_short : Z.of_nat (length (vChainMerkleBranch a)) <= 30.
Hypothesis coinbase_in_parent :
  Block.CheckMerkleBranch (Tx.GetHash (tx a)) (vMerkleBranch a) 0
  = hashMerkleRoot (parentBlock a).
Hypothesis first_input : vin (tx a) = txin0 :: others.

(** Once the tests of lines 73-87 have passed, the verdict is that of
    the script tests on the first input of the coinbase. *)
Lemma check_reaches_script :
  Block.check a hashAuxBlock nChainId params
  = Block.check_script a nChainId (scriptSig txin0)
      (rev (Block.CheckMerkleBranch hashAuxBlock (vChainMerkleBranch a)
                                    (nChainIndex a))).
Proof using index_zero parent_on_other_chain branch_short coinbase_in_parent
            first_input.
  unfold Block.check.
  rewrite index_zero, parent_on_other_chain. cbn [Z.eqb negb].
  destruct (Z.ltb_spec 30 (Z.of_nat (length (vChainMerkleBranch a))));
    [lia|].
  rewrite coinbase_in_parent, first_input.
  unfold uint256_eqb.
  destruct (list_eq_dec Byte.byte_eq_dec _ _) as [_|N]; [reflexivity|].
  exfalso. apply N. reflexivity.
Qed.

End EarlierChecks.

Lemma check_size_nonce_verdict :
  forall (a : CAuxPow) (nChainId : Z) (script : CScript) (pc : nat),
    Z.of_nat (length (vChainMerkleBranch a)) <= 30 ->
    (pc + 8 <= length script)%nat ->
    read_le32 script pc = 2 ^ Z.of_nat (length (vChainMerkleBranch a)) ->
    Block.check_size_nonce a nChainId script pc
    = if nChainIndex a
         =? Block.getExpectedIndex (read_le32 script (pc + 4)) nChainId
              (Z.of_nat (length (vChainMerkleBranch a)))
      then Accept else Reject WrongIndex.
Proof.
  intros a nChainId script pc Hh Hroom Hsize.
  unfold Block.check_size_nonce.
  destruct (Z.ltb_spec (Z.of_nat (length script) - Z.of_nat pc) 8); [lia|].
  rewrite shift_one_u32 by lia.
  rewrite Hsize, Z.eqb_refl. cbn [negb].
  destruct (nChainIndex a =? _); reflexivity.
Qed.

(** C4: for [h <= 30] the expected index is the closed formula
    [((((nonce*1103515245 + 12345) + chain_id)*1103515245 + 12345) mod 2^32)
    mod 2^h] (8 for nonce 0, chain id 0x62 and height 4); and once every
    earlier test of [check] has passed, the verdict is "Aux POW wrong
    index" exactly when [nChainIndex] differs from the expected index of
    the nonce read from the script, and acceptance otherwise. *)
Theorem check_wrong_index_iff :
  (forall nNonce nChainId h : Z,
      0 <= h <= 30 ->
      Block.getExpectedIndex nNonce nChainId h
      = ((((nNonce * 1103515245 + 12345) + nChainId) * 1103515245 + 12345)
           mod 2 ^ 32) mod 2 ^ h) /\
  (Block.getExpectedIndex 0 0x0062 4
   = ((((0 * 1103515245 + 12345) + 98) * 1103515245 + 12345) mod 2 ^ 32) mod 16
   /\ Block.getExpectedIndex 0 0x0062 4 = 8) /\
  (forall (a : CAuxPow) (hashAuxBlock : uint256) (nChainId : Z)
          (params : Consensus.Params) (txin0 : CTxIn) (others : list CTxIn),
      let script := scriptSig txin0 in
      let vchRootHash :=
        rev (Block.CheckMerkleBranch hashAuxBlock (vChainMerkleBranch a)
                                     (nChainIndex a)) in
      let pcHead := search script pchMergedHdr in
      let pc := search script vchRootHash in
      let merkleHeight := Z.of_nat (length (vChainMerkleBranch a)) in
      let nNonce := read_le32 script (pc + length vchRootHash + 4) in
      nIndex a = 0 ->
      Consensus.fStrictChainId params
      && (Header.GetChainId (parentBlock a) =? nChainId) = false ->
      merkleHeight <= 30 ->
      Block.CheckMerkleBranch (Tx.GetHash (tx a)) (vMerkleBranch a) 0
      = hashMerkleRoot (parentBlock a) ->
      vin (tx a) = txin0 :: others ->
      pc <> length script ->
      (pcHead <> length script ->
       search (skipn (pcHead + 1) script) pchMergedHdr
       = length (skipn (pcHead + 1) script)
       /\ (pcHead + 4)%nat = pc) ->
      (pcHead = length script -> (pc <= 20)%nat) ->
      (pc + length vchRootHash + 8 <= length script)%nat ->
      read_le32 script (pc + length vchRootHash) = 2 ^ merkleHeight ->
      (Block.check a hashAuxBlock nChainId params = Reject WrongIndex
       <-> nChainIndex a <> Block.getExpectedIndex nNonce nChainId merkleHeight) /\
      (Block.check a hashAuxBlock nChainId params = Accept
       <-> nChainIndex a = Block.getExpectedIndex nNonce nChainId merkleHeight)).
Proof.
  split; [exact getExpectedIndex_formula|].
  split; [split; reflexivity|].
  intros a hashAuxBlock nChainId params txin0 others
         script vchRootHash pcHead pc merkleHeight nNonce
         Hidx Hchain Hlen Hcoinbase Hvin Hfound Hmagic Hlegacy Hroom Hsize.
  rewrite (check_reaches_script a hashAuxBlock nChainId params txin0 others)
    by assumption.
  unfold Block.check_script.
  fold script. fold vchRootHash. fold pc. fold pcHead.
  destruct (Nat.eqb_spec pc (length script)) as [E|_]; [contradiction|].
  assert (Hpos :
    (if negb (pcHead =? length script)%nat
     then
       if negb (length (skipn (pcHead + 1) script)
                =? search (skipn (pcHead + 1) script) pchMergedHdr)%nat
       then Some MultipleMergedMiningHeaders
       else if negb (pcHead + length pchMergedHdr =? pc)%nat
            then Some HeaderNotJustBeforeRoot else None
     else if (20 <? pc)%nat then Some RootMustStartInFirst20Bytes else None)
    = None).
  { destruct (Nat.eqb_spec pcHead (length script)) as [E|N]; cbn [negb].
    - specialize (Hlegacy E).
      destruct (Nat.ltb_spec 20 pc); [lia | reflexivity].
    - destruct (Hmagic N) as [Hone Hjust].
      rewrite Hone, Nat.eqb_refl. cbn [negb].
      change (length pchMergedHdr) with 4%nat.
      rewrite Hjust, Nat.eqb_refl. reflexivity. }
  rewrite Hpos.
  rewrite check_size_nonce_verdict by (fold merkleHeight; assumption || lia).
  fold merkleHeight. fold nNonce.
  destruct (Z.eqb_spec (nChainIndex a)
                       (Block.getExpectedIndex nNonce nChainId merkleHeight));
    split; split; intros; congruence.
Qed.

Lemma check_wrong_index_iff_witness :
  Block.getExpectedIndex 0 98 4
  = ((((0 * 1103515245 + 12345) + 98) * 1103515245 + 12345) mod 2 ^ 32) mod 2 ^ 4 /\
  Block.check (Samples.aux4 3) Samples.hash_of_ones 98 Samples.main_consensus
  = Reject WrongIndex /\
  Block.check (Samples.aux4 8) Samples.hash_of_ones 98 Samples.main_consensus
  = Accept.
Proof.
  destruct check_wrong_index_iff as [Hformula [_ Hcheck]].
  split; [apply Hformula; lia|].
  split.
  - refine (proj2 (proj1 (Hcheck (Samples.aux4 3) Samples.hash_of_ones 98
                                 Samples.main_consensus
                                 (Samples.input_with (Samples.script4 3)) []
                                 _ _ _ _ _ _ _ _ _ _)) _).
    + reflexivity.
    + reflexivity.
    + vm_compute. discriminate.
    + vm_compute. reflexivity.
    + reflexivity.
    + vm_compute. discriminate.
    + intros _. split; vm_compute; reflexivity.
    + vm_compute. discriminate.
    + vm_compute. lia.
    + vm_compute. reflexivity.
    + vm_compute. discriminate.
  - refine (proj2 (proj2 (Hcheck (Samples.aux4 8) Samples.hash_of_ones 98
                                 Samples.main_consensus
                                 (Samples.input_with (Samples.script4 8)) []
                                 _ _ _ _ _ _ _ _ _ _)) _).
    + reflexivity.
    + reflexivity.
    + vm_compute. discriminate.
    + vm_compute. reflexivity.
    + reflexivity.
    + vm_compute. discriminate.
    + intros _. split; vm_compute; reflexivity.
    + vm_compute. discriminate.
    + vm_compute. lia.
    + vm_compute. reflexivity.
    + vm_compute. reflexivity.
Defined.

(** ** Searching the coinbase script *)

Lemma starts_with_app :
  forall pat rest : list byte, starts_with pat (pat ++ rest) = true.
Proof.
  induction pat as [|p pat IH]; intros rest; simpl.
  - reflexivity.
  - rewrite IH, andb_true_r. apply Byte.byte_dec_lb. reflexivity.
Qed.

Lemma search_le_length :
  forall s pat : list byte, (search s pat <= length s)%nat.
Proof.
  induction s as [|c s IH]; intros pat; simpl.
  - destruct (starts_with pat []); lia.
  - destruct (starts_with pat (c :: s)); [lia|].
    specialize (IH pat). lia.
Qed.

(** What [search] returns, when it is not the end, is an occurrence. *)
Lemma search_found :
  forall s pat : list byte,
    search s pat <> length s ->
    starts_with pat (skipn (search s pat) s) = true.
Proof.
  induction s as [|c s IH]; intros pat Hne; simpl in *.
  - destruct (starts_with pat []) eqn:E; [exact E | contradiction].
  - destruct (starts_with pat (c :: s)) eqn:E; [exact E|].
    simpl. apply IH. intros Heq. apply Hne. rewrite Heq. reflexivity.
Qed.

Lemma search_hit :
  forall s pat : list byte, starts_with pat s = true -> search s pat = O.
Proof.
  intros s pat H. destruct s; simpl; rewrite H; reflexivity.
Qed.

(** A pattern that occurs after [pre] and nowhere before is found at
    offset [length pre]. *)
Lemma search_first_occurrence :
  forall pre pat rest : list byte,
    (forall k, (k < length pre)%nat ->
               starts_with pat (skipn k (pre ++ pat ++ rest)) = false) ->
    search (pre ++ pat ++ rest) pat = length pre.
Proof.
  induction pre as [|c pre IH]; intros pat rest Hfirst.
  - simpl. apply search_hit, starts_with_app.
  - cbn [app search length].
    pose proof (Hfirst O ltac:(simpl; lia)) as H0. cbn [skipn app] in H0.
    rewrite H0. f_equal. apply IH.
    intros k Hk. apply (Hfirst (S k)). simpl. lia.
Qed.

(** C7: without the magic in the coinbase script, and the earlier tests
    passed, a script of 20 bytes of preamble followed by the reversed chain
    Merkle root (first found at offset 20) passes the position test: the
    verdict is that of the size and nonce tests after the root, never
    "must start in the first 20 bytes". With 21 bytes of preamble (root
    first found at offset 21) the verdict is "Aux POW chain merkle root
    must start in the first 20 bytes of the parent coinbase". *)
Theorem check_legacy_root_position :
  forall (a : CAuxPow) (hashAuxBlock : uint256) (nChainId : Z)
         (params : Consensus.Params) (txin0 : CTxIn) (others : list CTxIn)
         (pre rest : list byte),
    let script := scriptSig txin0 in
    let vchRootHash :=
      rev (Block.CheckMerkleBranch hashAuxBlock (vChainMerkleBranch a)
                                   (nChainIndex a)) in
    nIndex a = 0 ->
    Consensus.fStrictChainId params
    && (Header.GetChainId (parentBlock a) =? nChainId) = false ->
    Z.of_nat (length (vChainMerkleBranch a)) <= 30 ->
    Block.CheckMerkleBranch (Tx.GetHash (tx a)) (vMerkleBranch a) 0
    = hashMerkleRoot (parentBlock a) ->
    vin (tx a) = txin0 :: others ->
    length vchRootHash = 32%nat ->
    script = pre ++ vchRootHash ++ rest ->
    search script pchMergedHdr = length script ->
    (forall k, (k < length pre)%nat ->
               starts_with vchRootHash (skipn k script) = false) ->
    (length pre = 20%nat ->
     Block.check a hashAuxBlock nChainId params
     = Block.check_size_nonce a nChainId script 52
     /\ Block.check a hashAuxBlock nChainId params
        <> Reject RootMustStartInFirst20Bytes) /\
    (length pre = 21%nat ->
     Block.check a hashAuxBlock nChainId params
     = Reject RootMustStartInFirst20Bytes).
Proof.
  intros a hashAuxBlock nChainId params txin0 others pre rest script vchRootHash
         Hidx Hchain Hlen Hcoinbase Hvin Hroot Hscript Hmagic Hfirst.
  rewrite (check_reaches_script a hashAuxBlock nChainId params txin0 others)
    by assumption.
  fold script. fold vchRootHash.
  assert (Hpc : search script vchRootHash = length pre).
  { rewrite Hscript. apply search_first_occurrence.
    rewrite <- Hscript. exact Hfirst. }
  assert (Hsize : length script = (length pre + 32 + length rest)%nat).
  { rewrite Hscript, !length_app, Hroot. lia. }
  unfold Block.check_script.
  rewrite Hpc, Hmagic, Nat.eqb_refl, Hroot. cbn [negb].
  destruct (Nat.eqb_spec (length pre) (length script)) as [E|_]; [lia|].
  split; intros Hpre; rewrite Hpre.
  - change (20 <? 20)%nat with false. cbv iota.
    split; [reflexivity|].
    unfold Block.check_size_nonce.
    destruct (_ <? 8); [discriminate|].
    destruct (negb (_ =? _)); [discriminate|].
    destruct (negb (_ =? _)); discriminate.
  - reflexivity.
Qed.

(** Offsets below a concrete preamble, one after the other. *)
Ltac no_earlier_occurrence :=
  let k := fresh "k" in
  let Hk := fresh "Hk" in
  intros k Hk;
  repeat (destruct k as [|k]; [vm_compute; reflexivity|]);
  exfalso; unfold Samples.preamble in Hk; rewrite repeat_length in Hk; lia.

Lemma check_legacy_root_position_witness :
  (Block.check (Samples.aux_no_magic 20) Samples.hash_of_ones 98
               Samples.main_consensus
   = Block.check_size_nonce (Samples.aux_no_magic 20) 98
                            (Samples.script_no_magic 20) 52
   /\ Block.check (Samples.aux_no_magic 20) Samples.hash_of_ones 98
                  Samples.main_consensus
      <> Reject RootMustStartInFirst20Bytes) /\
  Block.check (Samples.aux_no_magic 21) Samples.hash_of_ones 98
              Samples.main_consensus
  = Reject RootMustStartInFirst20Bytes.
Proof.
  split.
  - refine (proj1 (check_legacy_root_position
                     (Samples.aux_no_magic 20) Samples.hash_of_ones 98
                     Samples.main_consensus
                     (Samples.input_with (Samples.script_no_magic 20)) []
                     (Samples.preamble 20) Samples.trailer
                     _ _ _ _ _ _ _ _ _) _).
    + reflexivity.
    + reflexivity.
    + vm_compute. discriminate.
    + vm_compute. reflexivity.
    + reflexivity.
    + reflexivity.
    + reflexivity.
    + vm_compute. reflexivity.
    + no_earlier_occurrence.
    + reflexivity.
  - refine (proj2 (check_legacy_root_position
                     (Samples.aux_no_magic 21) Samples.hash_of_ones 98
                     Samples.main_consensus
                     (Samples.input_with (Samples.script_no_magic 21)) []
                     (Samples.preamble 21) Samples.trailer
                     _ _ _ _ _ _ _ _ _) _).
    + reflexivity.
    + reflexivity.
    + vm_compute. discriminate.
    + vm_compute. reflexivity.
    + reflexivity.
    + reflexivity.
    + reflexivity.
    + vm_compute. reflexivity.
    + no_earlier_occurrence.
    + reflexivity.
Defined.

(** ** The genesis block *)

(** The hash model on the test vector "abc" of FIPS 180-4. *)
Example SHA256_abc :
  Crypto.SHA256 (bytes_of_string "abc")
  = rev (le_split 32
      0xba7816bf8f01cfea414140de5dae2223b00361a396177a9cb410ff61f20015ad).
Proof. vm_compute. reflexivity. Qed.

(** The other two constructors' assertions on [hashGenesisBlock]. *)
Example testnet_genesis_hash :
  Header.GetHash (header (ChainParams.genesis ChainParams.CTestNetParams))
  = uint256S 0xbb0a78264637406b6360aad926284d544d7049f45189db5664f3c4d07350559e.
Proof. vm_compute. reflexivity. Qed.

Example regtest_genesis_hash :
  Header.GetHash (header (ChainParams.genesis ChainParams.CRegTestParams))
  = uint256S 0x3d2160a3b5dc4a9d62e7e66a295f70313ac808440ef7400d6c0772171ce973a5.
Proof. vm_compute. reflexivity. Qed.

(** C9: the mainnet genesis block, built from time 1386325540, nonce 99943,
    bits 0x1e0ffff0, version 1, a reward of 88 * 10^8, the coinbase
    timestamp "Nintondo" and the output script that pushes the 65-byte
    public key and ends in OP_CHECKSIG, has the header hash 0x1a91...5691
    and the Merkle root 0x5b2a...6a69 that the constructor asserts. *)
Theorem mainnet_genesis_hash_and_merkle_root :
  Header.GetHash
    (header (ChainParams.CreateGenesisBlock 1386325540 99943 0x1e0ffff0 1
                                            (88 * 10 ^ 8)))
  = uint256S 0x1a91e3dace36e2be3bf030a65679fe821aa1d6ef92e7c9902eb318182c355691
  /\ hashMerkleRoot
       (header (ChainParams.CreateGenesisBlock 1386325540 99943 0x1e0ffff0 1
                                               (88 * 10 ^ 8)))
     = uint256S 0x5b2a3f53f605d62c53e62932dac6925e3d74afa5a4b459745c36d42d0ed26a69
  /\ ChainParams.genesis ChainParams.CMainParams
     = ChainParams.CreateGenesisBlock 1386325540 99943 0x1e0ffff0 1 (88 * 10 ^ 8)
  /\ length ChainParams.genesis_pubkey = 65%nat
  /\ map (fun t => (map scriptSig (vin t), map scriptPubKey (vout t),
                    map nValue (vout t)))
         (vtx (ChainParams.genesis ChainParams.CMainParams))
     = [([Script.push_data
            (Script.push_scriptnum (Script.push_int64 [] 486604799) 4)
            (bytes_of_string "Nintondo")],
         [Script.push_opcode (Script.push_data [] ChainParams.genesis_pubkey)
                             Script.OP_CHECKSIG],
         [88 * 10 ^ 8])].
Proof.
  split; [vm_compute; reflexivity|].
  split; [vm_compute; reflexivity|].
  split; [reflexivity|].
  split; reflexivity.
Qed.

(** ** Setting the base version *)

Lemma land_low_byte : forall b, 0 <= b < 256 -> Z.land b 255 = b.
Proof.
  intros b Hb. change 255 with (Z.ones 8).
  rewrite Z.land_ones by lia. apply Z.mod_small. exact Hb.
Qed.

Lemma land_shifted_16 :
  forall c m, 0 <= m < 65536 -> Z.land (Z.shiftl c 16) m = 0.
Proof.
  intros c m Hm.
  assert (E : m = Z.land 65535 m).
  { rewrite Z.land_comm. change 65535 with (Z.ones 16).
    rewrite Z.land_ones by lia. symmetry. apply Z.mod_small. lia. }
  rewrite E, Z.land_assoc.
  change 65535 with (Z.ones 16).
  rewrite Z.land_ones by lia.
  rewrite Z.shiftl_mul_pow2 by lia.
  rewrite Z.mod_mul by lia. reflexivity.
Qed.

Lemma base_version_bits :
  forall b c,
    1 <= b < 256 -> 0 <= c < 2 ^ 15 ->
    let v := Z.lor b (Int.i32 (Z.shiftl c 16)) in
    Z.land v 255 = b /\ Z.shiftr v 16 = c /\ Z.land v 256 = 0 /\
    (v = 1 <-> b = 1 /\ c = 0) /\ (v = 2 <-> b = 2 /\ c = 0).
Proof.
  intros b c Hb Hc v.
  assert (Hs : Int.i32 (Z.shiftl c 16) = Z.shiftl c 16).
  { apply i32_small. rewrite Z.shiftl_mul_pow2 by lia.
    change (2 ^ 15) with 32768 in Hc. change (2 ^ 16) with 65536.
    change (2 ^ 31) with 2147483648. lia. }
  subst v. rewrite Hs.
  assert (H255 : Z.land (Z.lor b (Z.shiftl c 16)) 255 = b).
  { rewrite Z.land_lor_distr_l, land_low_byte, land_shifted_16 by lia.
    apply Z.lor_0_r. }
  assert (H16 : Z.shiftr (Z.lor b (Z.shiftl c 16)) 16 = c).
  { rewrite Z.shiftr_lor, Z.shiftr_shiftl_l by lia.
    rewrite Z.shiftr_div_pow2 by lia.
    rewrite Z.div_small by (change (2 ^ 16) with 65536; lia).
    rewrite Z.sub_diag, Z.shiftl_0_r. reflexivity. }
  split; [exact H255|]. split; [exact H16|]. split.
  - rewrite Z.land_lor_distr_l, land_shifted_16 by lia.
    rewrite <- (land_low_byte b) by lia.
    rewrite <- Z.land_assoc. change (Z.land 255 256) with 0.
    rewrite Z.land_0_r. reflexivity.
  - split; split.
    + intros E. rewrite E in H255, H16. cbn in H255, H16. lia.
    + intros [-> ->]. reflexivity.
    + intros E. rewrite E in H255, H16. cbn in H255, H16. lia.
    + intros [-> ->]. reflexivity.
Qed.

(** X12: [SetBaseVersion] fails one of its assertions exactly when the base
    version is outside [1, 256) or the header has the AuxPoW bit. Otherwise,
    for a chain id in [0, 2^15), the new version gives back the base
    version through [GetBaseVersion] and the chain id through [GetChainId],
    the AuxPoW bit stays clear, the header is legacy exactly when the chain
    id is 0 and the base version 1 or 2, and no other field changes. *)
Theorem SetBaseVersion_round_trip :
  forall (h : CBlockHeader) (nBaseVersion nChainId : Z),
    (HeaderOps.SetBaseVersion h nBaseVersion nChainId = None <->
     nBaseVersion < 1 \/ 256 <= nBaseVersion \/ Header.IsAuxpow h = true) /\
    (1 <= nBaseVersion < 256 ->
    0 <= nChainId < 2 ^ 15 ->
    Header.IsAuxpow h = false ->
    exists h',
      HeaderOps.SetBaseVersion h nBaseVersion nChainId = Some h' /\
      Header.GetBaseVersion h' = nBaseVersion /\
      Header.GetChainId h' = nChainId /\
      Header.IsAuxpow h' = false /\
      (Header.IsLegacy h' = true <->
       nChainId = 0 /\ (nBaseVersion = 1 \/ nBaseVersion = 2)) /\
      (hashPrevBlock h', hashMerkleRoot h', nTime h', nBits h', nNonce h', auxpow h')
      = (hashPrevBlock h, hashMerkleRoot h, nTime h, nBits h, nNonce h, auxpow h)).
Proof.
  intros h b c. split.
  { unfold HeaderOps.SetBaseVersion, Header.VERSION_AUXPOW.
    change (Z.shiftl 1 8) with 256.
    destruct (Z.geb_spec b 1) as [G1|G1]; destruct (Z.ltb_spec b 256) as [G2|G2];
      destruct (Header.IsAuxpow h); cbn [andb negb];
      split; intros E; try discriminate E; try lia; auto;
      destruct E as [E | [E | E]]; try lia; discriminate E. }
  intros Hb Hc Haux.
  destruct (base_version_bits b c Hb Hc) as [H255 [H16 [H256 [H1 H2]]]].
  eexists. split.
  - unfold HeaderOps.SetBaseVersion, Header.VERSION_AUXPOW.
    rewrite Haux. cbn [negb].
    destruct (Z.geb_spec b 1); [|lia].
    destruct (Z.ltb_spec b (Z.shiftl 1 8)); [|cbn in *; lia].
    reflexivity.
  - unfold Header.GetBaseVersion, Header.GetChainId, Header.IsAuxpow,
      Header.IsLegacy, Header.VERSION_AUXPOW, HeaderOps.with_nVersion.
    cbn [nVersion auxpow].
    change (Z.shiftl 1 8) with 256.
    rewrite H255, H16, H256.
    split; [reflexivity|]. split; [reflexivity|]. split; [reflexivity|].
    split; [|reflexivity].
    split.
    + intros E. apply orb_true_iff in E. destruct E as [E|E].
      * apply Z.eqb_eq in E. apply H1 in E. lia.
      * apply andb_true_iff in E. destruct E as [E E0].
        apply Z.eqb_eq in E. apply H2 in E. lia.
    + intros [-> [-> | ->]]; reflexivity.
Qed.

(** ** Reading a header back *)

Lemma read_bytes_app :
  forall (n : nat) (x rest : list byte),
    length x = n -> HeaderOps.read_bytes n (x ++ rest) = Some (x, rest).
Proof.
  intros n x rest Hn. unfold HeaderOps.read_bytes.
  rewrite length_app.
  destruct (Nat.leb_spec n (length x + length rest)); [|lia].
  rewrite firstn_app, skipn_app, Hn, Nat.sub_diag. cbn [firstn skipn].
  rewrite <- Hn, firstn_all, skipn_all, app_nil_r. reflexivity.
Qed.

Lemma read_u32_app :
  forall (x : Z) (rest : list byte),
    0 <= x < 2 ^ 32 -> HeaderOps.read_u32 (Ser.ser_u32 x ++ rest) = Some (x, rest).
Proof.
  intros x rest Hx. unfold HeaderOps.read_u32, Ser.ser_u32.
  rewrite read_bytes_app by apply length_le_split.
  rewrite le_combine_split. change (Z.of_nat 4 * 8) with 32.
  rewrite Z.mod_small by exact Hx. reflexivity.
Qed.

Lemma read_i32_app :
  forall (x : Z) (rest : list byte),
    - 2 ^ 31 <= x < 2 ^ 31 ->
    HeaderOps.read_i32 (Ser.ser_i32 x ++ rest) = Some (x, rest).
Proof.
  intros x rest Hx. unfold HeaderOps.read_i32, Ser.ser_i32.
  rewrite read_bytes_app by apply length_le_split.
  rewrite le_combine_split. change (Z.of_nat 4 * 8) with 32.
  unfold Int.i32. rewrite Zplus_mod_idemp_l.
  rewrite Z.mod_small by (change (2 ^ 32) with (2 * 2 ^ 31); lia).
  f_equal. f_equal. lia.
Qed.

Lemma read_preimage :
  forall (R : list byte -> option (CAuxPow * list byte)) (nType : Z)
         (old : option CAuxPow) (h : CBlockHeader) (rest : list byte),
    HeaderOps.well_typed h ->
    HeaderOps.Unserialize R nType old (Header.preimage h ++ rest)
    = if negb (negb (Z.land nType Ser.SER_GETHASH =? 0)) then
        if Header.IsAuxpow h then
          match R rest with
          | Some (a, bs) => Some (HeaderOps.with_auxpow h (Some a), bs)
          | None => None
          end
        else Some (HeaderOps.with_auxpow h None, rest)
      else Some (HeaderOps.with_auxpow h old, rest).
Proof.
  intros R nType old h rest [Hv [Hp [Hm [Ht [Hb Hn]]]]].
  unfold HeaderOps.Unserialize, Header.preimage, HeaderOps.read_uint256,
    Ser.ser_uint256.
  rewrite <- !app_assoc.
  rewrite read_i32_app by exact Hv.
  rewrite read_bytes_app by exact Hp.
  rewrite read_bytes_app by exact Hm.
  rewrite !read_u32_app by assumption.
  reflexivity.
Qed.

(** X13: writing a header whose fields are in the ranges of their types and
    reading the bytes back. The 80 bytes are the six fields in order, the
    integers little-endian. On a hash stream nothing else is written and
    the reader leaves the appendix pointer alone; on any other stream a
    header without the AuxPoW bit comes back with its appendix pointer
    reset, a header with the bit and no appendix fails the assertion of the
    writer, and with an appendix the reader goes on with the appendix
    reader on the bytes after the first 80. *)
Theorem Unserialize_Serialize :
  forall (R : list byte -> option (CAuxPow * list byte)) (nType : Z)
         (old : option CAuxPow) (h : CBlockHeader) (rest : list byte),
    HeaderOps.well_typed h ->
    let bytes :=
      le_split 4 (nVersion h) ++ hashPrevBlock h ++ hashMerkleRoot h
        ++ le_split 4 (nTime h) ++ le_split 4 (nBits h) ++ le_split 4 (nNonce h) in
    (Z.land nType Ser.SER_GETHASH <> 0 ->
     Header.Serialize nType h = Some bytes /\
     HeaderOps.Unserialize R nType old (bytes ++ rest)
     = Some (mkCBlockHeader (nVersion h) (hashPrevBlock h) (hashMerkleRoot h)
                            (nTime h) (nBits h) (nNonce h) old, rest)) /\
    (Z.land nType Ser.SER_GETHASH = 0 -> Header.IsAuxpow h = false ->
     Header.Serialize nType h = Some bytes /\
     HeaderOps.Unserialize R nType old (bytes ++ rest)
     = Some (mkCBlockHeader (nVersion h) (hashPrevBlock h) (hashMerkleRoot h)
                            (nTime h) (nBits h) (nNonce h) None, rest)) /\
    (Z.land nType Ser.SER_GETHASH = 0 -> Header.IsAuxpow h = true ->
     auxpow h = None ->
     Header.Serialize nType h = None) /\
    (Z.land nType Ser.SER_GETHASH = 0 -> Header.IsAuxpow h = true ->
     forall a : CAuxPow,
       auxpow h = Some a ->
       Header.Serialize nType h = Some (bytes ++ Header.ser_auxpow a) /\
       HeaderOps.Unserialize R nType old ((bytes ++ Header.ser_auxpow a) ++ rest)
       = match R (Header.ser_auxpow a ++ rest) with
         | Some (a', bs) =>
             Some (mkCBlockHeader (nVersion h) (hashPrevBlock h) (hashMerkleRoot h)
                                  (nTime h) (nBits h) (nNonce h) (Some a'), bs)
         | None => None
         end).
Proof.
  intros R nType old h rest Hwf bytes.
  change bytes with (Header.preimage h). clear bytes.
  change (mkCBlockHeader (nVersion h) (hashPrevBlock h) (hashMerkleRoot h)
                         (nTime h) (nBits h) (nNonce h))
    with (HeaderOps.with_auxpow h).
  split; [|split; [|split]].
  - intros Hhash.
    rewrite read_preimage by exact Hwf. unfold Header.Serialize.
    destruct (Z.eqb_spec (Z.land nType Ser.SER_GETHASH) 0); [contradiction|].
    split; reflexivity.
  - intros Hnet Hbit.
    rewrite read_preimage by exact Hwf. unfold Header.Serialize.
    rewrite Hnet, Hbit. split; reflexivity.
  - intros Hnet Hbit Hnull. unfold Header.Serialize.
    rewrite Hnet, Hbit, Hnull. reflexivity.
  - intros Hnet Hbit a Ha.
    rewrite <- app_assoc, read_preimage by exact Hwf. unfold Header.Serialize.
    rewrite Hnet, Hbit, Ha. split; reflexivity.
Qed.

Lemma read_bytes_inv :
  forall (n : nat) (bs x r : list byte),
    HeaderOps.read_bytes n bs = Some (x, r) -> bs = x ++ r /\ length x = n.
Proof.
  intros n bs x r. unfold HeaderOps.read_bytes.
  destruct (Nat.leb_spec n (length bs)); [|discriminate].
  intros [= <- <-]. split.
  - symmetry. apply firstn_skipn.
  - apply firstn_length_le. assumption.
Qed.

Lemma read_u32_inv :
  forall (bs r : list byte) (x : Z),
    HeaderOps.read_u32 bs = Some (x, r) ->
    bs = Ser.ser_u32 x ++ r /\ 0 <= x < 2 ^ 32.
Proof.
  intros bs r x. unfold HeaderOps.read_u32.
  destruct (HeaderOps.read_bytes 4 bs) as [[b r']|] eqn:E; [|discriminate].
  intros [= <- <-]. destruct (read_bytes_inv _ _ _ _ E) as [-> Hb].
  split.
  - unfold Ser.ser_u32. rewrite <- Hb, split_le_combine. reflexivity.
  - pose proof (le_combine_bound b) as B. rewrite Hb in B. exact B.
Qed.

Lemma i32_range : forall x, - 2 ^ 31 <= Int.i32 x < 2 ^ 31.
Proof.
  intros x. unfold Int.i32.
  pose proof (Z.mod_pos_bound (x + 2 ^ 31) (2 ^ 32) eq_refl).
  change (2 ^ 32) with (2 * 2 ^ 31) in *. lia.
Qed.

Lemma i32_mod : forall x, Int.i32 x mod 2 ^ 32 = x mod 2 ^ 32.
Proof.
  intros x. unfold Int.i32.
  rewrite Zminus_mod_idemp_l. f_equal. lia.
Qed.

Lemma read_i32_inv :
  forall (bs r : list byte) (x : Z),
    HeaderOps.read_i32 bs = Some (x, r) ->
    bs = Ser.ser_i32 x ++ r /\ - 2 ^ 31 <= x < 2 ^ 31.
Proof.
  intros bs r x. unfold HeaderOps.read_i32.
  destruct (HeaderOps.read_bytes 4 bs) as [[b r']|] eqn:E; [|discriminate].
  intros [= <- <-]. destruct (read_bytes_inv _ _ _ _ E) as [-> Hb].
  split.
  - unfold Ser.ser_i32. rewrite le_split_mod.
    change (Z.of_nat 4 * 8) with 32. rewrite i32_mod.
    change 32 with (Z.of_nat 4 * 8). rewrite <- le_split_mod.
    rewrite <- Hb, split_le_combine. reflexivity.
  - apply i32_range.
Qed.

Lemma Unserialize_inv :
  forall (R : list byte -> option (CAuxPow * list byte)) (nType : Z)
         (old : option CAuxPow) (bs rest : list byte) (h : CBlockHeader),
    HeaderOps.Unserialize R nType old bs = Some (h, rest) ->
    (80 <= length bs)%nat /\
    HeaderOps.well_typed h /\
    Header.preimage h = firstn 80 bs /\
    (Z.land nType Ser.SER_GETHASH = 0 ->
     (Header.IsAuxpow h = true <-> auxpow h <> None)) /\
    (Z.land nType Ser.SER_GETHASH <> 0 ->
     auxpow h = old /\ rest = skipn 80 bs).
Proof.
  intros R nType old bs rest h. unfold HeaderOps.Unserialize.
  destruct (HeaderOps.read_i32 bs) as [[v b1]|] eqn:E1; [|discriminate].
  destruct (HeaderOps.read_uint256 b1) as [[prev b2]|] eqn:E2; [|discriminate].
  destruct (HeaderOps.read_uint256 b2) as [[root b3]|] eqn:E3; [|discriminate].
  destruct (HeaderOps.read_u32 b3) as [[time b4]|] eqn:E4; [|discriminate].
  destruct (HeaderOps.read_u32 b4) as [[bits b5]|] eqn:E5; [|discriminate].
  destruct (HeaderOps.read_u32 b5) as [[nonce b6]|] eqn:E6; [|discriminate].
  destruct (read_i32_inv _ _ _ E1) as [-> Hv].
  destruct (read_bytes_inv _ _ _ _ E2) as [-> Hp].
  destruct (read_bytes_inv _ _ _ _ E3) as [-> Hm].
  destruct (read_u32_inv _ _ _ E4) as [-> Ht].
  destruct (read_u32_inv _ _ _ E5) as [-> Hb].
  destruct (read_u32_inv _ _ _ E6) as [-> Hn].
  set (pre := Ser.ser_i32 v ++ prev ++ root ++ Ser.ser_u32 time
                ++ Ser.ser_u32 bits ++ Ser.ser_u32 nonce).
  assert (Hlen : length pre = 80%nat).
  { unfold pre, Ser.ser_i32, Ser.ser_u32.
    rewrite !length_app, !length_le_split, Hp, Hm. reflexivity. }
  assert (Hbs : Ser.ser_i32 v ++ prev ++ root ++ Ser.ser_u32 time
                  ++ Ser.ser_u32 bits ++ Ser.ser_u32 nonce ++ b6 = pre ++ b6).
  { unfold pre. rewrite <- !app_assoc. reflexivity. }
  rewrite Hbs.
  assert (Hfirst : firstn 80 (pre ++ b6) = pre).
  { rewrite <- Hlen, firstn_app, Nat.sub_diag, firstn_all. cbn [firstn].
    apply app_nil_r. }
  assert (Hskip : skipn 80 (pre ++ b6) = b6).
  { rewrite <- Hlen, skipn_app, Nat.sub_diag, skipn_all. reflexivity. }
  assert (Hge : (80 <= length (pre ++ b6))%nat) by (rewrite length_app; lia).
  assert (Hwf : forall o, HeaderOps.well_typed (mkCBlockHeader v prev root time bits nonce o)).
  { intros o. unfold HeaderOps.well_typed. cbn. tauto. }
  destruct (Z.eqb_spec (Z.land nType Ser.SER_GETHASH) 0) as [Hnet|Hhash];
    cbn [negb].
  - destruct (Header.IsAuxpow (mkCBlockHeader v prev root time bits nonce old))
      eqn:Hbit.
    + destruct (R b6) as [[a r]|]; [|discriminate].
      intros [= <- <-].
      split; [exact Hge|]. split; [apply Hwf|]. split; [rewrite Hfirst; reflexivity|].
      split; [|contradiction].
      intros _. cbn [auxpow]. split; [discriminate | intros _; exact Hbit].
    + intros [= <- <-].
      split; [exact Hge|]. split; [apply Hwf|]. split; [rewrite Hfirst; reflexivity|].
      split; [|contradiction].
      intros _. cbn [auxpow]. split; [intros E; change (Header.IsAuxpow (mkCBlockHeader v prev root time bits nonce old) = true) in E; congruence | intros N; contradiction N; reflexivity].
  - intros [= <- <-].
    split; [exact Hge|]. split; [apply Hwf|]. split; [rewrite Hfirst; reflexivity|].
    split; [contradiction|].
    intros _. split; [reflexivity | symmetry; exact Hskip].
Qed.

(** X14: whatever [Unserialize] returns, the stream had at least 80 bytes,
    the fields of the header are in the ranges of their types, and writing
    the six fields again gives the first 80 bytes of the stream. Read from
    a stream that is not a hash stream, the header has an appendix exactly
    when its version has the AuxPoW bit; read from a hash stream, it keeps
    the appendix pointer it had and exactly 80 bytes are consumed. *)
Theorem Unserialize_gives_well_formed_header :
  forall (R : list byte -> option (CAuxPow * list byte)) (nType : Z)
         (old : option CAuxPow) (bs rest : list byte) (h : CBlockHeader),
    HeaderOps.Unserialize R nType old bs = Some (h, rest) ->
    (80 <= length bs)%nat /\
    (- 2 ^ 31 <= nVersion h < 2 ^ 31 /\
     length (hashPrevBlock h) = 32%nat /\ length (hashMerkleRoot h) = 32%nat /\
     0 <= nTime h < 2 ^ 32 /\ 0 <= nBits h < 2 ^ 32 /\ 0 <= nNonce h < 2 ^ 32) /\
    le_split 4 (nVersion h) ++ hashPrevBlock h ++ hashMerkleRoot h
      ++ le_split 4 (nTime h) ++ le_split 4 (nBits h) ++ le_split 4 (nNonce h)
    = firstn 80 bs /\
    (Z.land nType Ser.SER_GETHASH = 0 ->
     (Z.land (nVersion h) 256 <> 0 <-> auxpow h <> None)) /\
    (Z.land nType Ser.SER_GETHASH <> 0 ->
     auxpow h = old /\ rest = skipn 80 bs).
Proof.
  intros R nType old bs rest h Hread.
  destruct (Unserialize_inv R nType old bs rest h Hread)
    as [Hge [Hwf [Hpre [Hnet Hhash]]]].
  split; [exact Hge|]. split; [exact Hwf|]. split; [exact Hpre|].
  split; [|exact Hhash].
  intros E. rewrite <- (Hnet E).
  unfold Header.IsAuxpow, Header.VERSION_AUXPOW. change (Z.shiftl 1 8) with 256.
  destruct (Z.eqb_spec (Z.land (nVersion h) 256) 0) as [Z0|Z0]; cbn [negb].
  - split; [intros N; contradiction | discriminate].
  - split; [reflexivity | intros _; exact Z0].
Qed.

(** ** The Merkle verifier and the index *)

Lemma low_bits_step :
  forall (i j : Z) (n : nat),
    i mod 2 ^ Z.of_nat (S n) = j mod 2 ^ Z.of_nat (S n) ->
    Z.land i 1 = Z.land j 1 /\
    Z.shiftr i 1 mod 2 ^ Z.of_nat n = Z.shiftr j 1 mod 2 ^ Z.of_nat n.
Proof.
  intros i j n H.
  rewrite Nat2Z.inj_succ, Z.pow_succ_r in H by lia.
  assert (P : 0 < 2 ^ Z.of_nat n) by (apply Z.pow_pos_nonneg; lia).
  rewrite !Z.rem_mul_r in H by lia.
  rewrite !Z.shiftr_div_pow2 by lia.
  change (Z.land i 1) with (Z.land i (Z.ones 1)).
  change (Z.land j 1) with (Z.land j (Z.ones 1)).
  rewrite !Z.land_ones by lia.
  change (2 ^ 1) with 2.
  pose proof (Z.mod_pos_bound i 2 eq_refl) as Bi.
  pose proof (Z.mod_pos_bound j 2 eq_refl) as Bj.
  generalize dependent ((i / 2) mod 2 ^ Z.of_nat n).
  generalize dependent ((j / 2) mod 2 ^ Z.of_nat n).
  generalize dependent (i mod 2). generalize dependent (j mod 2).
  clear. intros. lia.
Qed.

Lemma merkle_fold_low_bits :
  forall (branch : list uint256) (hash : uint256) (i j : Z),
    i mod 2 ^ Z.of_nat (length branch) = j mod 2 ^ Z.of_nat (length branch) ->
    Block.merkle_fold hash branch i = Block.merkle_fold hash branch j.
Proof.
  induction branch as [|it rest IH]; intros hash i j H.
  - reflexivity.
  - cbn [length] in H. destruct (low_bits_step i j (length rest) H) as [Hbit Hrest].
    cbn [Block.merkle_fold]. rewrite Hbit. apply IH. exact Hrest.
Qed.

(** X1: for two indices other than the sentinel -1 that agree on their low
    [length branch] bits, [CheckMerkleBranch] gives the same result: bits
    of the index beyond the length of the branch are never looked at. *)
Theorem CheckMerkleBranch_ignores_high_bits :
  forall (hash : uint256) (branch : list uint256) (i j : Z),
    i <> -1 -> j <> -1 ->
    i mod 2 ^ Z.of_nat (length branch) = j mod 2 ^ Z.of_nat (length branch) ->
    Block.CheckMerkleBranch hash branch i = Block.CheckMerkleBranch hash branch j.
Proof.
  intros hash branch i j Hi Hj H. unfold Block.CheckMerkleBranch.
  destruct (Z.eqb_spec i (-1)); [contradiction|].
  destruct (Z.eqb_spec j (-1)); [contradiction|].
  apply merkle_fold_low_bits. exact H.
Qed.

Lemma merkle_fold_app :
  forall (b1 b2 : list uint256) (hash : uint256) (i : Z),
    Block.merkle_fold hash (b1 ++ b2) i
    = Block.merkle_fold (Block.merkle_fold hash b1 i) b2
                        (Z.shiftr i (Z.of_nat (length b1))).
Proof.
  induction b1 as [|it rest IH]; intros b2 hash i.
  - cbn [app Block.merkle_fold length]. change (Z.of_nat 0) with 0.
    rewrite Z.shiftr_0_r. reflexivity.
  - cbn [app Block.merkle_fold length]. rewrite IH.
    rewrite Z.shiftr_shiftr by lia. do 2 f_equal. lia.
Qed.

(** X2: for an index that is not negative, verifying along a branch made
    of two parts is verifying the first part and then the second part with
    the index shifted by the length of the first; and one step hashes the
    running hash before the sibling for an even index and after it for an
    odd one. *)
Theorem CheckMerkleBranch_app :
  forall (hash sibling : uint256) (b1 b2 : list uint256) (i : Z),
    0 <= i ->
    Block.CheckMerkleBranch hash (b1 ++ b2) i
    = Block.CheckMerkleBranch (Block.CheckMerkleBranch hash b1 i) b2
                              (Z.shiftr i (Z.of_nat (length b1))) /\
    Block.CheckMerkleBranch hash [sibling] i
    = (if Z.even i then Crypto.dsha256 (hash ++ sibling)
       else Crypto.dsha256 (sibling ++ hash)).
Proof.
  intros hash sibling b1 b2 i Hi. unfold Block.CheckMerkleBranch.
  assert (Hs : 0 <= Z.shiftr i (Z.of_nat (length b1)))
    by (apply Z.shiftr_nonneg; exact Hi).
  destruct (Z.eqb_spec i (-1)); [lia|].
  destruct (Z.eqb_spec (Z.shiftr i (Z.of_nat (length b1))) (-1)); [lia|].
  split; [apply merkle_fold_app|].
  cbn [Block.merkle_fold]. unfold Hash.
  change (Z.land i 1) with (Z.land i (Z.ones 1)).
  rewrite Z.land_ones by lia. change (2 ^ 1) with 2.
  rewrite Zmod_even. destruct (Z.even i); reflexivity.
Qed.

Lemma getExpectedIndex_bounds :
  forall nNonce nChainId h : Z,
    0 <= h <= 30 -> 0 <= Block.getExpectedIndex nNonce nChainId h < 2 ^ h.
Proof.
  intros nNonce nChainId h Hh.
  rewrite getExpectedIndex_formula by exact Hh.
  pose proof (pow2_le_30 h Hh) as B.
  apply Z.mod_pos_bound. exact (proj1 B).
Qed.

(** X3: for a height of at most 30 the expected index is a leaf index of a
    tree of that height, [0 <= index < 2^h] (so 0 for height 0), and it
    depends on the nonce and on the chain id only through their low 32
    bits. *)
Theorem getExpectedIndex_in_range :
  forall nNonce nChainId h : Z,
    0 <= h <= 30 ->
    0 <= Block.getExpectedIndex nNonce nChainId h < 2 ^ h /\
    (h = 0 -> Block.getExpectedIndex nNonce nChainId h = 0) /\
    Block.getExpectedIndex nNonce nChainId h
    = Block.getExpectedIndex (nNonce mod 2 ^ 32) (nChainId mod 2 ^ 32) h.
Proof.
  intros nNonce nChainId h Hh.
  pose proof (getExpectedIndex_bounds nNonce nChainId h Hh) as B.
  split; [exact B|]. split.
  - intros E. subst h. change (2 ^ 0) with 1 in B. lia.
  - unfold Block.getExpectedIndex, Int.u32. cbv zeta.
    assert (A1 : (nNonce mod 2 ^ 32 * 1103515245 + 12345) mod 2 ^ 32
                 = (nNonce * 1103515245 + 12345) mod 2 ^ 32).
    { rewrite <- Zplus_mod_idemp_l, Zmult_mod_idemp_l, Zplus_mod_idemp_l.
      reflexivity. }
    rewrite A1, Zplus_mod_idemp_r. reflexivity.
Qed.

(** ** More on searching the script *)

Lemma search_none :
  forall s pat : list byte,
    (forall k, (k < length s)%nat -> starts_with pat (skipn k s) = false) ->
    search s pat = length s.
Proof.
  induction s as [|c s IH]; intros pat H.
  - cbn. destruct (starts_with pat []); reflexivity.
  - cbn [search length].
    pose proof (H O ltac:(cbn; lia)) as H0. cbn [skipn] in H0. rewrite H0.
    f_equal. apply IH. intros k Hk. apply (H (S k)). cbn. lia.
Qed.

Lemma search_le_occurrence :
  forall (s pat : list byte) (k : nat),
    starts_with pat (skipn k s) = true -> (search s pat <= k)%nat.
Proof.
  induction s as [|c s IH]; intros pat k H.
  - cbn. destruct (starts_with pat []); lia.
  - cbn [search]. destruct (starts_with pat (c :: s)) eqn:E; [lia|].
    destruct k as [|k]; [cbn in H; congruence|].
    cbn [skipn] in H. specialize (IH pat k H). lia.
Qed.

Lemma search_first :
  forall (s pat : list byte) (p : nat),
    (p < length s)%nat ->
    starts_with pat (skipn p s) = true ->
    (forall k, (k < p)%nat -> starts_with pat (skipn k s) = false) ->
    search s pat = p.
Proof.
  intros s pat p Hp Hocc Hfirst.
  pose proof (search_le_occurrence s pat p Hocc) as Hle.
  destruct (Nat.eq_dec (search s pat) p) as [E|N]; [exact E|].
  assert (Hlt : (search s pat < p)%nat) by lia.
  assert (Hne : search s pat <> length s) by lia.
  pose proof (search_found s pat Hne) as Hf.
  rewrite (Hfirst _ Hlt) in Hf. discriminate.
Qed.

(** ** The verdicts of [CAuxPow::check] *)

Lemma check_size_nonce_cases :
  forall (a : CAuxPow) (nChainId : Z) (script : CScript) (pc : nat) (v : verdict),
    Block.check_size_nonce a nChainId script pc = v ->
    v = Reject ChainMerkleSizeMissing \/ v = Reject MerkleBranchSizeMismatch \/
    v = Reject WrongIndex \/ v = Accept.
Proof.
  intros a nChainId script pc v <-. unfold Block.check_size_nonce.
  destruct (_ <? 8); [auto|].
  destruct (negb (_ =? _)); [auto|].
  destruct (negb (_ =? _)); auto.
Qed.

Lemma check_script_cases :
  forall (a : CAuxPow) (nChainId : Z) (script : CScript) (root : list byte)
         (v : verdict),
    Block.check_script a nChainId script root = v ->
    v = Reject MissingChainMerkleRoot \/ v = Reject MultipleMergedMiningHeaders \/
    v = Reject HeaderNotJustBeforeRoot \/ v = Reject RootMustStartInFirst20Bytes \/
    v = Reject ChainMerkleSizeMissing \/ v = Reject MerkleBranchSizeMismatch \/
    v = Reject WrongIndex \/ v = Accept.
Proof.
  intros a nChainId script root v <-. unfold Block.check_script.
  destruct (_ =? _)%nat; [auto|].
  destruct (negb (_ =? _)%nat).
  - destruct (negb (_ =? _)%nat); [auto|].
    destruct (negb (_ =? _)%nat); [auto 6|].
    match goal with
    | |- context [Block.check_size_nonce ?x ?c ?s ?p] =>
        destruct (check_size_nonce_cases x c s p _ eq_refl) as [E|[E|[E|E]]];
        rewrite E; auto 10
    end.
  - destruct (_ <? _)%nat; [auto 6|].
    match goal with
    | |- context [Block.check_size_nonce ?x ?c ?s ?p] =>
        destruct (check_size_nonce_cases x c s p _ eq_refl) as [E|[E|[E|E]]];
        rewrite E; auto 10
    end.
Qed.

Ltac script_verdict H :=
  match type of H with
  | Block.check_script ?a ?c ?s ?r = ?v =>
      destruct (check_script_cases a c s r v H)
        as [E|[E|[E|[E|[E|[E|[E|E]]]]]]]; discriminate E
  end.

Ltac split_iffs :=
  repeat match goal with
         | |- _ /\ _ => split
         | |- _ <-> _ => split
         end.

Ltac first_tests_case :=
  split_iffs; intros Hv;
  try discriminate Hv; try reflexivity; try (script_verdict Hv);
  solve [intuition (try congruence; try lia)].

(** X4: the exact conditions of the first verdicts of [check], in the order
    of the tests: "not a generate" iff [nIndex] is not 0; "parent has our
    chain ID" iff [nIndex] is 0, the chain id is strict and the parent has
    ours; "branch too long" iff these pass and the chain branch has more
    than 30 hashes; "merkle root incorrect" iff these pass and the coinbase
    branch does not lead to the parent's Merkle root; and the read of
    [vin[0]] is out of range iff all four pass and the coinbase has no
    input. *)
Theorem check_first_tests :
  forall (a : CAuxPow) (hashAuxBlock : uint256) (nChainId : Z)
         (params : Consensus.Params),
    let v := Block.check a hashAuxBlock nChainId params in
    let same_chain :=
      Consensus.fStrictChainId params = true /\
      Header.GetChainId (parentBlock a) = nChainId in
    let in_parent :=
      Block.CheckMerkleBranch (Tx.GetHash (tx a)) (vMerkleBranch a) 0
      = hashMerkleRoot (parentBlock a) in
    (v = Reject NotAGenerate <-> nIndex a <> 0) /\
    (v = Reject ParentHasOurChainId <-> nIndex a = 0 /\ same_chain) /\
    (v = Reject ChainBranchTooLong <->
     nIndex a = 0 /\ ~ same_chain /\ (30 < length (vChainMerkleBranch a))%nat) /\
    (v = Reject MerkleRootIncorrect <->
     nIndex a = 0 /\ ~ same_chain /\ (length (vChainMerkleBranch a) <= 30)%nat
     /\ ~ in_parent) /\
    (v = Undefined <->
     nIndex a = 0 /\ ~ same_chain /\ (length (vChainMerkleBranch a) <= 30)%nat
     /\ in_parent /\ vin (tx a) = []).
Proof.
  intros a hashAuxBlock nChainId params v same_chain in_parent.
  subst v same_chain in_parent. unfold Block.check.
  destruct (Z.eqb_spec (nIndex a) 0) as [Hidx|Hidx]; cbn [negb];
    [|first_tests_case].
  destruct (Consensus.fStrictChainId params) eqn:Hs;
    destruct (Z.eqb_spec (Header.GetChainId (parentBlock a)) nChainId) as [Hc|Hc];
    cbn [andb]; try first_tests_case.
  all: destruct (Z.ltb_spec 30 (Z.of_nat (length (vChainMerkleBranch a))))
    as [Hl|Hl]; try first_tests_case.
  all: rewrite Hidx; unfold uint256_eqb;
    destruct (list_eq_dec Byte.byte_eq_dec
                (Block.CheckMerkleBranch (Tx.GetHash (tx a)) (vMerkleBranch a) 0)
                (hashMerkleRoot (parentBlock a))) as [Hm|Hm]; cbn [negb];
    try first_tests_case.
  all: destruct (vin (tx a)) as [|txin0 others] eqn:Hvin; first_tests_case.
Qed.

(** X6: the verdict of [check] depends on the appendix only through the
    coinbase, the two branches with their indices, and the parent's version
    and Merkle root, and on the parameters only through [fStrictChainId]:
    the block hash hint, the parent's previous hash, time, bits, nonce and
    appendix pointer, and every other parameter, are never read. *)
Theorem check_reads_only_validated_fields :
  forall (a a' : CAuxPow) (hashAuxBlock : uint256) (nChainId : Z)
         (params params' : Consensus.Params),
    tx a = tx a' ->
    vMerkleBranch a = vMerkleBranch a' ->
    nIndex a = nIndex a' ->
    vChainMerkleBranch a = vChainMerkleBranch a' ->
    nChainIndex a = nChainIndex a' ->
    nVersion (parentBlock a) = nVersion (parentBlock a') ->
    hashMerkleRoot (parentBlock a) = hashMerkleRoot (parentBlock a') ->
    Consensus.fStrictChainId params = Consensus.fStrictChainId params' ->
    Block.check a hashAuxBlock nChainId params
    = Block.check a' hashAuxBlock nChainId params'.
Proof.
  intros a a' hashAuxBlock nChainId params params'
         Htx Hmb Hidx Hcb Hci Hver Hroot Hstrict.
  unfold Block.check, Block.check_script, Block.check_size_nonce,
    Header.GetChainId.
  rewrite Htx, Hmb, Hidx, Hcb, Hci, Hver, Hroot, Hstrict. reflexivity.
Qed.

Lemma check_size_nonce_accept :
  forall (a : CAuxPow) (nChainId : Z) (script : CScript) (pc : nat),
    Z.of_nat (length (vChainMerkleBranch a)) <= 30 ->
    Block.check_size_nonce a nChainId script pc = Accept ->
    (pc + 8 <= length script)%nat /\
    read_le32 script pc = 2 ^ Z.of_nat (length (vChainMerkleBranch a)) /\
    nChainIndex a
    = Block.getExpectedIndex (read_le32 script (pc + 4)) nChainId
                             (Z.of_nat (length (vChainMerkleBranch a))).
Proof.
  intros a nChainId script pc Hh. unfold Block.check_size_nonce.
  destruct (Z.ltb_spec (Z.of_nat (length script) - Z.of_nat pc) 8) as [L|L];
    [discriminate|].
  rewrite shift_one_u32 by lia.
  destruct (Z.eqb_spec (read_le32 script pc)
                       (2 ^ Z.of_nat (length (vChainMerkleBranch a))))
    as [Es|Es]; cbn [negb]; [|discriminate].
  destruct (Z.eqb_spec (nChainIndex a)
                       (Block.getExpectedIndex (read_le32 script (pc + 4)) nChainId
                          (Z.of_nat (length (vChainMerkleBranch a)))))
    as [Ei|Ei]; cbn [negb]; [|discriminate].
  intros _. split; [lia|]. split; assumption.
Qed.

Lemma check_script_accept :
  forall (a : CAuxPow) (nChainId : Z) (script : CScript) (root : list byte),
    Z.of_nat (length (vChainMerkleBranch a)) <= 30 ->
    Block.check_script a nChainId script root = Accept ->
    let pc := search script root in
    (pc < length script)%nat /\
    starts_with root (skipn pc script) = true /\
    ((pc <= 20)%nat \/
     (4 <= pc)%nat /\ starts_with pchMergedHdr (skipn (pc - 4) script) = true) /\
    Block.check_size_nonce a nChainId script (pc + length root) = Accept.
Proof.
  intros a nChainId script root Hh Hv pc. subst pc.
  unfold Block.check_script in Hv. cbv zeta in Hv.
  destruct (Nat.eqb_spec (search script root) (length script)) as [E|Hfound];
    [discriminate|].
  pose proof (search_le_length script root) as Hle.
  split; [lia|]. split; [apply search_found; exact Hfound|].
  destruct (Nat.eqb_spec (search script pchMergedHdr) (length script))
    as [Hno|Hmagic]; cbn [negb] in Hv.
  - destruct (Nat.ltb_spec 20 (search script root)); [discriminate|].
    split; [left; lia | exact Hv].
  - destruct (negb (_ =? _)%nat); [discriminate|].
    change (length pchMergedHdr) with 4%nat in Hv.
    destruct (Nat.eqb_spec (search script pchMergedHdr + 4) (search script root))
      as [Hjust|Hjust]; cbn [negb] in Hv; [|discriminate].
    split; [|exact Hv].
    right. split; [lia|].
    rewrite <- Hjust, Nat.add_sub. apply search_found. exact Hmagic.
Qed.

Lemma check_accept_prefix :
  forall (a : CAuxPow) (hashAuxBlock : uint256) (nChainId : Z)
         (params : Consensus.Params),
    Block.check a hashAuxBlock nChainId params = Accept ->
    nIndex a = 0 /\
    Consensus.fStrictChainId params
    && (Header.GetChainId (parentBlock a) =? nChainId) = false /\
    Z.of_nat (length (vChainMerkleBranch a)) <= 30 /\
    Block.CheckMerkleBranch (Tx.GetHash (tx a)) (vMerkleBranch a) 0
    = hashMerkleRoot (parentBlock a) /\
    exists (txin0 : CTxIn) (others : list CTxIn), vin (tx a) = txin0 :: others.
Proof.
  intros a hashAuxBlock nChainId params. unfold Block.check.
  destruct (Z.eqb_spec (nIndex a) 0) as [Hidx|Hidx]; cbn [negb]; [|discriminate].
  rewrite Hidx.
  destruct (Consensus.fStrictChainId params
            && (Header.GetChainId (parentBlock a) =? nChainId)); [discriminate|].
  destruct (Z.ltb_spec 30 (Z.of_nat (length (vChainMerkleBranch a))));
    [discriminate|].
  unfold uint256_eqb.
  destruct (list_eq_dec Byte.byte_eq_dec _ _) as [Hm|Hm]; cbn [negb];
    [|discriminate].
  destruct (vin (tx a)) as [|txin0 others]; [discriminate|].
  intros _. repeat (split; [first [reflexivity | assumption | lia]|]).
  exists txin0, others. reflexivity.
Qed.

(** X5: what an accepted appendix satisfies: [nIndex] is 0; under a strict
    chain id the parent is on another chain; the chain branch has at most
    30 hashes; the coinbase branch leads to the parent's Merkle root; the
    chain index is a leaf index of the tree; and the script of the first
    coinbase input holds the reversed chain Merkle root, either within its
    first 20 bytes or right after the magic, followed by the size
    [2^height] and by a nonce whose expected index is the chain index. *)
Theorem check_accept_sound :
  forall (a : CAuxPow) (hashAuxBlock : uint256) (nChainId : Z)
         (params : Consensus.Params),
    Block.check a hashAuxBlock nChainId params = Accept ->
    let h := Z.of_nat (length (vChainMerkleBranch a)) in
    let root :=
      rev (Block.CheckMerkleBranch hashAuxBlock (vChainMerkleBranch a)
                                   (nChainIndex a)) in
    nIndex a = 0 /\
    (Consensus.fStrictChainId params = true ->
     Header.GetChainId (parentBlock a) <> nChainId) /\
    h <= 30 /\
    Block.CheckMerkleBranch (Tx.GetHash (tx a)) (vMerkleBranch a) 0
    = hashMerkleRoot (parentBlock a) /\
    0 <= nChainIndex a < 2 ^ h /\
    exists (txin0 : CTxIn) (others : list CTxIn) (pc : nat),
      vin (tx a) = txin0 :: others /\
      starts_with root (skipn pc (scriptSig txin0)) = true /\
      ((pc <= 20)%nat \/
       (4 <= pc)%nat /\
       starts_with pchMergedHdr (skipn (pc - 4) (scriptSig txin0)) = true) /\
      (pc + length root + 8 <= length (scriptSig txin0))%nat /\
      read_le32 (scriptSig txin0) (pc + length root) = 2 ^ h /\
      nChainIndex a
      = Block.getExpectedIndex (read_le32 (scriptSig txin0) (pc + length root + 4))
                               nChainId h.
Proof.
  intros a hashAuxBlock nChainId params Hv h root.
  destruct (check_accept_prefix a hashAuxBlock nChainId params Hv)
    as [Hidx [Hstrict [Hh [Hroot [txin0 [others Hvin]]]]]].
  fold h in Hh.
  rewrite (check_reaches_script a hashAuxBlock nChainId params txin0 others)
    in Hv by assumption.
  fold root in Hv.
  destruct (check_script_accept a nChainId (scriptSig txin0) root Hh Hv)
    as [Hpc [Hocc [Hpos Htail]]].
  destruct (check_size_nonce_accept a nChainId (scriptSig txin0) _ Hh Htail)
    as [Hroom [Hsize Hindex]].
  split; [exact Hidx|].
  split.
  { intros S C. rewrite S in Hstrict. apply Z.eqb_eq in C.
    rewrite C in Hstrict. discriminate Hstrict. }
  split; [exact Hh|]. split; [exact Hroot|].
  split.
  { rewrite Hindex. apply getExpectedIndex_bounds. subst h. lia. }
  exists txin0, others, (search (scriptSig txin0) root).
  split; [exact Hvin|]. split; [exact Hocc|]. split; [exact Hpos|].
  split; [exact Hroom|]. split; [exact Hsize|]. exact Hindex.
Qed.

(** ** Layouts of the coinbase script *)

Lemma starts_with_nonempty_lt :
  forall (pat s : list byte) (k : nat),
    pat <> [] -> starts_with pat (skipn k s) = true -> (k < length s)%nat.
Proof.
  intros pat s k Hne H.
  destruct (le_lt_dec (length s) k) as [L|L]; [|exact L].
  rewrite skipn_all2 in H by exact L.
  destruct pat; [contradiction | discriminate H].
Qed.

Lemma skipn_exact :
  forall (x rest : list byte), skipn (length x) (x ++ rest) = rest.
Proof.
  intros x rest. rewrite skipn_app, skipn_all, Nat.sub_diag. reflexivity.
Qed.

Lemma read_le32_after :
  forall (front back : list byte) (n : nat),
    length front = n -> read_le32 (front ++ back) n = le_combine (firstn 4 back).
Proof.
  intros front back n <-. unfold read_le32. rewrite skipn_exact. reflexivity.
Qed.

Lemma read_le32_split :
  forall (front rest : list byte) (x : Z) (n : nat),
    length front = n ->
    read_le32 (front ++ le_split 4 x ++ rest) n = x mod 2 ^ 32.
Proof.
  intros front rest x n Hn. rewrite (read_le32_after _ _ _ Hn).
  rewrite firstn_app, length_le_split, Nat.sub_diag, firstn_O, app_nil_r.
  rewrite firstn_all2 by (rewrite length_le_split; lia).
  rewrite le_combine_split. reflexivity.
Qed.

Section ScriptLayouts.

Variables (a : CAuxPow) (hashAuxBlock : uint256) (nChainId : Z)
          (params : Consensus.Params) (txin0 : CTxIn) (others : list CTxIn).

Let script : CScript := scriptSig txin0.
Let root : list byte :=
  rev (Block.CheckMerkleBranch hashAuxBlock (vChainMerkleBranch a) (nChainIndex a)).
Let h : Z := Z.of_nat (length (vChainMerkleBranch a)).

Hypothesis index_zero : nIndex a = 0.
Hypothesis parent_on_other_chain :
  Consensus.fStrictChainId params
  && (Header.GetChainId (parentBlock a) =? nChainId) = false.
Hypothesis branch_short : h <= 30.
Hypothesis coinbase_in_parent :
  Block.CheckMerkleBranch (Tx.GetHash (tx a)) (vMerkleBranch a) 0
  = hashMerkleRoot (parentBlock a).
Hypothesis first_input : vin (tx a) = txin0 :: others.

Lemma check_is_check_script :
  Block.check a hashAuxBlock nChainId params
  = Block.check_script a nChainId script root.
Proof using index_zero parent_on_other_chain branch_short coinbase_in_parent
            first_input.
  apply (check_reaches_script a hashAuxBlock nChainId params txin0 others);
    assumption.
Qed.

(** X7: once the first tests have passed, the verdict is "missing chain
    merkle root" exactly when the reversed root occurs at no offset of the
    script (an empty script included). *)
Theorem check_missing_root_iff :
  Block.check a hashAuxBlock nChainId params = Reject MissingChainMerkleRoot
  <-> (forall k, (k < length script)%nat ->
                 starts_with root (skipn k script) = false).
Proof using index_zero parent_on_other_chain branch_short coinbase_in_parent
            first_input.
  rewrite check_is_check_script. split.
  - intros Hv k Hk.
    destruct (starts_with root (skipn k script)) eqn:E; [|reflexivity].
    exfalso. pose proof (search_le_occurrence script root k E) as Hle.
    revert Hv. unfold Block.check_script. cbv zeta.
    destruct (Nat.eqb_spec (search script root) (length script)) as [E'|_];
      [lia|].
    destruct (negb (_ =? _)%nat).
    + destruct (negb (_ =? _)%nat); [discriminate|].
      destruct (negb (_ =? _)%nat); [discriminate|].
      intros Hv.
      destruct (check_size_nonce_cases _ _ _ _ _ Hv) as [E'|[E'|[E'|E']]];
        discriminate E'.
    + destruct (_ <? _)%nat; [discriminate|].
      intros Hv.
      destruct (check_size_nonce_cases _ _ _ _ _ Hv) as [E'|[E'|[E'|E']]];
        discriminate E'.
  - intros Hnone. unfold Block.check_script. cbv zeta.
    rewrite (search_none script root Hnone), Nat.eqb_refl. reflexivity.
Qed.

(** X8: once the first tests have passed and the root is in the script, a
    script with the magic at two different offsets is rejected with
    "multiple merged mining headers", wherever the two are. *)
Theorem check_two_magics :
  forall i j k : nat,
    (i < j)%nat ->
    starts_with pchMergedHdr (skipn i script) = true ->
    starts_with pchMergedHdr (skipn j script) = true ->
    (k < length script)%nat ->
    starts_with root (skipn k script) = true ->
    Block.check a hashAuxBlock nChainId params = Reject MultipleMergedMiningHeaders.
Proof using index_zero parent_on_other_chain branch_short coinbase_in_parent
            first_input.
  intros i j k Hij Hi Hj Hk Hroot.
  rewrite check_is_check_script. unfold Block.check_script. cbv zeta.
  pose proof (search_le_occurrence script root k Hroot) as Hpc.
  pose proof (search_le_occurrence script pchMergedHdr i Hi) as Hhead.
  assert (Hjlen : (j < length script)%nat).
  { apply (starts_with_nonempty_lt pchMergedHdr); [discriminate | exact Hj]. }
  destruct (Nat.eqb_spec (search script root) (length script)); [lia|].
  destruct (Nat.eqb_spec (search script pchMergedHdr) (length script)); [lia|].
  cbn [negb].
  set (m := search script pchMergedHdr) in *.
  assert (Hsecond : (search (skipn (m + 1) script) pchMergedHdr <= j - (m + 1))%nat).
  { apply search_le_occurrence. rewrite skipn_skipn.
    replace (j - (m + 1) + (m + 1))%nat with j by lia. exact Hj. }
  destruct (Nat.eqb_spec (length (skipn (m + 1) script))
                         (search (skipn (m + 1) script) pchMergedHdr)) as [E|_].
  - rewrite length_skipn in E. lia.
  - reflexivity.
Qed.

(** X9: once the first tests have passed, a script with the magic at one
    offset only and the root first found anywhere but 4 bytes after it is
    rejected with "merged mining header is not just before chain merkle
    root". *)
Theorem check_magic_not_before_root :
  forall m p : nat,
    starts_with pchMergedHdr (skipn m script) = true ->
    (forall k, k <> m -> starts_with pchMergedHdr (skipn k script) = false) ->
    (p < length script)%nat ->
    starts_with root (skipn p script) = true ->
    (forall k, (k < p)%nat -> starts_with root (skipn k script) = false) ->
    p <> (m + 4)%nat ->
    Block.check a hashAuxBlock nChainId params = Reject HeaderNotJustBeforeRoot.
Proof using index_zero parent_on_other_chain branch_short coinbase_in_parent
            first_input.
  intros m p Hm Honly Hp Hroot Hfirst Hgap.
  rewrite check_is_check_script. unfold Block.check_script. cbv zeta.
  assert (Hmlen : (m < length script)%nat).
  { apply (starts_with_nonempty_lt pchMergedHdr); [discriminate | exact Hm]. }
  rewrite (search_first script root p Hp Hroot Hfirst).
  rewrite (search_first script pchMergedHdr m Hmlen Hm)
    by (intros k Hk; apply Honly; lia).
  destruct (Nat.eqb_spec p (length script)); [lia|].
  destruct (Nat.eqb_spec m (length script)); [lia|]. cbn [negb].
  rewrite (search_none (skipn (m + 1) script) pchMergedHdr).
  2: { intros k _. rewrite skipn_skipn. apply Honly. lia. }
  rewrite Nat.eqb_refl. cbn [negb].
  change (length pchMergedHdr) with 4%nat.
  destruct (Nat.eqb_spec (m + 4) p); [lia | reflexivity].
Qed.

(** X10: once the first tests have passed, a script made of any preamble
    (of any length, also more than 20 bytes), the magic, the reversed root,
    the size [2^height] and a nonce, with the magic nowhere else and the
    root not found earlier, is accepted when the chain index is the
    expected index of that nonce. *)
Theorem check_accepts_magic_layout :
  forall (pre rest : list byte) (nNonce : Z),
    script = pre ++ pchMergedHdr ++ root
                 ++ le_split 4 (2 ^ h) ++ le_split 4 nNonce ++ rest ->
    (forall k, k <> length pre ->
               starts_with pchMergedHdr (skipn k script) = false) ->
    (forall k, (k < length pre + 4)%nat ->
               starts_with root (skipn k script) = false) ->
    nChainIndex a = Block.getExpectedIndex (nNonce mod 2 ^ 32) nChainId h ->
    Block.check a hashAuxBlock nChainId params = Accept.
Proof using index_zero parent_on_other_chain branch_short coinbase_in_parent
            first_input.
  intros pre rest nNonce Hscript Honly Hfirst Hindex.
  set (tail_ := le_split 4 (2 ^ h) ++ le_split 4 nNonce ++ rest) in *.
  assert (Hlen : length script
                 = (length pre + 4 + length root + 8 + length rest)%nat).
  { rewrite Hscript. unfold tail_.
    rewrite !length_app, !length_le_split.
    change (length pchMergedHdr) with 4%nat. lia. }
  assert (Hm : search script pchMergedHdr = length pre).
  { rewrite Hscript. apply search_first_occurrence.
    rewrite <- Hscript. intros k Hk. apply Honly. lia. }
  assert (Hpc : search script root = (length pre + 4)%nat).
  { replace script with ((pre ++ pchMergedHdr) ++ root ++ tail_)
      by (rewrite Hscript, <- app_assoc; reflexivity).
    replace (length pre + 4)%nat with (length (pre ++ pchMergedHdr))
      by (rewrite length_app; reflexivity).
    apply search_first_occurrence.
    rewrite length_app. change (length pchMergedHdr) with 4%nat.
    replace ((pre ++ pchMergedHdr) ++ root ++ tail_) with script
      by (rewrite Hscript, <- app_assoc; reflexivity).
    exact Hfirst. }
  rewrite check_is_check_script. unfold Block.check_script. cbv zeta.
  rewrite Hpc, Hm.
  destruct (Nat.eqb_spec (length pre + 4) (length script)); [lia|].
  destruct (Nat.eqb_spec (length pre) (length script)); [lia|]. cbn [negb].
  rewrite (search_none (skipn (length pre + 1) script) pchMergedHdr).
  2: { intros k _. rewrite skipn_skipn. apply Honly. lia. }
  rewrite Nat.eqb_refl. cbn [negb].
  change (length pchMergedHdr) with 4%nat. rewrite Nat.eqb_refl. cbn [negb].
  rewrite check_size_nonce_verdict.
  - fold h.
    replace script
      with (((pre ++ pchMergedHdr ++ root) ++ le_split 4 (2 ^ h))
              ++ le_split 4 nNonce ++ rest)
      by (rewrite Hscript; unfold tail_; rewrite <- !app_assoc; reflexivity).
    rewrite read_le32_split
      by (rewrite !length_app, length_le_split;
          change (length pchMergedHdr) with 4%nat; lia).
    rewrite <- Hindex, Z.eqb_refl. reflexivity.
  - exact branch_short.
  - lia.
  - fold h.
    replace script
      with ((pre ++ pchMergedHdr ++ root) ++ le_split 4 (2 ^ h)
              ++ le_split 4 nNonce ++ rest)
      by (rewrite Hscript; unfold tail_; rewrite <- !app_assoc; reflexivity).
    rewrite read_le32_split
      by (rewrite !length_app; change (length pchMergedHdr) with 4%nat; lia).
    apply Z.mod_small.
    pose proof (pow2_le_30 h ltac:(subst h; lia)) as B.
    change (2 ^ 30) with 1073741824 in B. change (2 ^ 32) with 4294967296. lia.
Qed.

(** X11: in the layout without magic (the root first found after a preamble
    of at most 20 bytes), fewer than 8 bytes after the root give "missing
    chain merkle tree size and nonce", and 8 bytes or more whose first four
    are not the little-endian [2^height] give "merkle branch size does not
    match". *)
Theorem check_legacy_trailer :
  forall (pre trailer : list byte),
    script = pre ++ root ++ trailer ->
    (length pre <= 20)%nat ->
    root <> [] ->
    (forall k, starts_with pchMergedHdr (skipn k script) = false) ->
    (forall k, (k < length pre)%nat -> starts_with root (skipn k script) = false) ->
    ((length trailer < 8)%nat ->
     Block.check a hashAuxBlock nChainId params = Reject ChainMerkleSizeMissing) /\
    ((8 <= length trailer)%nat -> le_combine (firstn 4 trailer) <> 2 ^ h ->
     Block.check a hashAuxBlock nChainId params = Reject MerkleBranchSizeMismatch).
Proof using index_zero parent_on_other_chain branch_short coinbase_in_parent
            first_input.
  intros pre trailer Hscript Hpre Hroot Hnomagic Hfirst.
  assert (Hlen : length script = (length pre + length root + length trailer)%nat).
  { rewrite Hscript, !length_app. lia. }
  assert (Hrootlen : (0 < length root)%nat).
  { destruct root; [contradiction | cbn; lia]. }
  assert (Hpc : search script root = length pre).
  { rewrite Hscript. apply search_first_occurrence. rewrite <- Hscript.
    exact Hfirst. }
  assert (Hm : search script pchMergedHdr = length script).
  { apply search_none. intros k _. apply Hnomagic. }
  rewrite check_is_check_script. unfold Block.check_script. cbv zeta.
  rewrite Hpc, Hm, Nat.eqb_refl. cbn [negb].
  destruct (Nat.eqb_spec (length pre) (length script)); [lia|].
  destruct (Nat.ltb_spec 20 (length pre)); [lia|].
  unfold Block.check_size_nonce.
  split.
  - intros Hshort.
    destruct (Z.ltb_spec (Z.of_nat (length script)
                          - Z.of_nat (length pre + length root)) 8);
      [reflexivity | lia].
  - intros Hroom Hsize.
    destruct (Z.ltb_spec (Z.of_nat (length script)
                          - Z.of_nat (length pre + length root)) 8); [lia|].
    rewrite shift_one_u32 by (fold h; lia). fold h.
    replace script with ((pre ++ root) ++ trailer)
      by (rewrite Hscript, <- app_assoc; reflexivity).
    rewrite read_le32_after by (rewrite length_app; reflexivity).
    destruct (Z.eqb_spec (le_combine (firstn 4 trailer)) (2 ^ h));
      [contradiction | reflexivity].
Qed.

End ScriptLayouts.

(** ** Hashes are 32 bytes *)

Lemma length_round :
  forall (s : list Z) (kw : Z * Z),
    length s = 8%nat -> length (Crypto.round s kw) = 8%nat.
Proof.
  intros s kw H.
  do 8 (destruct s as [|? s]; [discriminate H|]).
  destruct s; [reflexivity | discriminate H].
Qed.

Lemma length_fold_round :
  forall (l : list (Z * Z)) (s : list Z),
    length s = 8%nat -> length (fold_left Crypto.round l s) = 8%nat.
Proof.
  induction l as [|kw l IH]; intros s H; cbn [fold_left].
  - exact H.
  - apply IH, length_round, H.
Qed.

Lemma length_compress :
  forall (s : list Z) (block : list byte),
    length s = 8%nat -> length (Crypto.compress s block) = 8%nat.
Proof.
  intros s block H. unfold Crypto.compress.
  rewrite length_map, length_combine, length_fold_round, H by exact H.
  reflexivity.
Qed.

Lemma length_SHA256 :
  forall msg : list byte, length (Crypto.SHA256 msg) = 32%nat.
Proof.
  intros msg. unfold Crypto.SHA256. cbv zeta.
  set (bl := Crypto.blocks _ _).
  assert (H : length (fold_left Crypto.compress bl Crypto.H0) = 8%nat).
  { generalize Crypto.H0 (eq_refl : length Crypto.H0 = 8%nat).
    induction bl as [|b bl IH]; intros s Hs; cbn [fold_left].
    - exact Hs.
    - apply IH, length_compress, Hs. }
  revert H. generalize (fold_left Crypto.compress bl Crypto.H0). intros st H.
  do 8 (destruct st as [|? st]; [discriminate H|]).
  destruct st; [|discriminate H].
  cbn [flat_map]. unfold Crypto.be_bytes.
  rewrite !length_app, !length_rev, !length_le_split. reflexivity.
Qed.

Lemma length_GetHash : forall h : CBlockHeader, length (Header.GetHash h) = 32%nat.
Proof. intros h. apply length_SHA256. Qed.

(** ** The appendix built by [buildSimpleAuxPow] *)

Lemma starts_with_shifted :
  forall (x t : list byte) (c : byte),
    starts_with x (c :: x ++ t) = true -> x = repeat c (length x).
Proof.
  induction x as [|b x IH]; intros t c H.
  - reflexivity.
  - cbn [starts_with app] in H. apply andb_true_iff in H. destruct H as [Hb Hx].
    apply Byte.byte_dec_bl in Hb. subst b.
    cbn [length repeat]. f_equal. apply (IH t c). exact Hx.
Qed.

(** X17: the appendix that [buildSimpleAuxPow] of block__.cpp builds for a
    header keeps the [nIndex] -1 of the constructor. Checked against the
    hash the builder took, it is accepted by the [check] of block__.cpp
    (when the magic does not occur in its script, the hash is not 32 bytes
    0x28 and the parent's chain id 0 is allowed) and rejected by the
    [check] of block.cpp with "AuxPow is not a generate". *)
Theorem buildSimpleAuxPow_verdicts :
  forall (SetAuxpowFlag : bool -> CBlockHeader -> CBlockHeader)
         (CURRENT_VERSION : Z) (h : CBlockHeader) (nChainId : Z)
         (params : Consensus.Params),
    let blockHash := Header.GetHash h in
    let script := Script.push_data [] (Block__Build.inputData blockHash) in
    (forall k, starts_with pchMergedHdr (skipn k script) = false) ->
    blockHash <> repeat (byte.of_Z 40) 32 ->
    Consensus.fStrictChainId params && (0 =? nChainId) = false ->
    exists a : CAuxPow,
      auxpow (Block__Build.buildSimpleAuxPow SetAuxpowFlag CURRENT_VERSION h)
      = Some a /\
      nIndex a = -1 /\
      Block__.check a blockHash nChainId params = Accept /\
      Block.check a blockHash nChainId params = Reject NotAGenerate.
Proof.
  intros SetAuxpowFlag CURRENT_VERSION h nChainId params blockHash script
         Hnomagic Hnot40 Hchain.
  eexists. split; [reflexivity|]. split; [reflexivity|]. split; [|reflexivity].
  pose proof (length_GetHash h) as Hlen. fold blockHash in Hlen.
  assert (Hscript : script = [byte.of_Z 40] ++ rev blockHash
                              ++ le_split 4 1 ++ le_split 4 0).
  { unfold script, Script.push_data, Block__Build.inputData.
    rewrite !length_app, length_rev, Hlen. reflexivity. }
  assert (Hpc : search script (rev blockHash) = 1%nat).
  { rewrite Hscript.
    apply (search_first_occurrence [byte.of_Z 40] (rev blockHash)).
    intros k Hk. cbn [length] in Hk. assert (k = O) by lia. subst k.
    cbn [skipn app].
    destruct (starts_with (rev blockHash)
                (byte.of_Z 40 :: rev blockHash ++ le_split 4 1 ++ le_split 4 0))
             eqn:E; [|reflexivity].
    exfalso. apply Hnot40.
    apply starts_with_shifted in E. rewrite length_rev, Hlen in E.
    rewrite <- (rev_involutive blockHash), E. reflexivity. }
  assert (Hm : search script pchMergedHdr = length script).
  { apply search_none. intros k _. apply Hnomagic. }
  assert (Hslen : length script = 41%nat).
  { rewrite Hscript, !length_app, length_rev, Hlen. reflexivity. }
  unfold Block__.check, Header.GetChainId.
  cbn [parentBlock vChainMerkleBranch vMerkleBranch nChainIndex tx vin scriptSig
       hashMerkleRoot nVersion length].
  change (Z.shiftr 1 16) with 0. rewrite Hchain.
  change (30 <? Z.of_nat 0) with false. cbv iota.
  unfold BlockMerkleRoot. cbn [vtx map length ComputeMerkleRoot].
  unfold Block__.CheckMerkleBranch at 2. cbn [Z.eqb Block__.merkle_fold].
  unfold uint256_eqb.
  destruct (list_eq_dec Byte.byte_eq_dec _ _) as [_|N];
    [|exfalso; apply N; reflexivity].
  cbn [negb].
  unfold Block__.CheckMerkleBranch. cbn [Z.eqb Block__.merkle_fold].
  rewrite check_script_copies.
  fold blockHash. fold script.
  unfold Block.check_script. cbv zeta.
  rewrite Hpc, Hm, Nat.eqb_refl, Hslen. cbn [negb Nat.eqb Nat.ltb Nat.leb].
  rewrite check_size_nonce_verdict.
  - cbn [vChainMerkleBranch nChainIndex length].
    rewrite length_rev, Hlen.
    replace script with (([byte.of_Z 40] ++ rev blockHash ++ le_split 4 1)
                           ++ le_split 4 0 ++ [])
      by (rewrite Hscript, app_nil_r, <- !app_assoc; reflexivity).
    rewrite read_le32_split
      by (rewrite !length_app, length_rev, Hlen; reflexivity).
    change (Z.of_nat 0) with 0.
    pose proof (getExpectedIndex_bounds (0 mod 2 ^ 32) nChainId 0 ltac:(lia))
      as B.
    change (2 ^ 0) with 1 in B.
    replace (Block.getExpectedIndex (0 mod 2 ^ 32) nChainId 0) with 0 by lia.
    reflexivity.
  - cbn. lia.
  - rewrite length_rev, Hlen, Hslen. lia.
  - cbn [vChainMerkleBranch length]. rewrite length_rev, Hlen.
    replace script with (([byte.of_Z 40] ++ rev blockHash)
                           ++ le_split 4 1 ++ le_split 4 0)
      by (rewrite Hscript, <- !app_assoc; reflexivity).
    rewrite read_le32_split
      by (rewrite !length_app, length_rev, Hlen; reflexivity).
    reflexivity.
Qed.

(** ** Height-gated parameters and amounts *)

(** X15: for each of the three networks the coinbase maturity is
    [nCoinbaseMaturityBegin] below [CoinbaseMaturity240Height] and 240 from
    it on, it never shrinks with the height, and that height is the one of
    the timespan transition. *)
Theorem nCoinbaseMaturity_single_transition :
  forall (chain : string) (p : ChainParams.CChainParams) (h : Z),
    ChainParams.CreateChainParams chain = Some p ->
    let c := ChainParams.consensus p in
    (h < Consensus.CoinbaseMaturity240Height c ->
     Consensus.nCoinbaseMaturity c h = Consensus.nCoinbaseMaturityBegin c) /\
    (Consensus.CoinbaseMaturity240Height c <= h ->
     Consensus.nCoinbaseMaturity c h = 240) /\
    Consensus.nCoinbaseMaturity c h <= Consensus.nCoinbaseMaturity c (h + 1) /\
    Consensus.CoinbaseMaturity240Height c = Consensus.PowTargetTimespan60Height c.
Proof.
  intros chain p h Hsel c.
  destruct (CreateChainParams_cases chain p Hsel) as [[_ Hp] | [[_ Hp] | [_ Hp]]];
    subst c; subst p;
    unfold Consensus.nCoinbaseMaturity;
    cbn [ChainParams.consensus ChainParams.CMainParams ChainParams.CTestNetParams
         ChainParams.CRegTestParams Consensus.CoinbaseMaturity240Height
         Consensus.nCoinbaseMaturityBegin Consensus.PowTargetTimespan60Height];
    (split; [intros Hh | split; [intros Hh | split; [|reflexivity]]]);
    repeat match goal with
           | |- context [?x >=? ?y] => destruct (Z.geb_spec x y)
           end;
    change (Int.i32 240) with 240; change (Int.i32 30) with 30;
    change (Int.i32 60) with 60;
    first [reflexivity | lia].
Qed.

(** X16: for each of the three networks and every height the difficulty
    adjustment interval is at least 1 and the timespan is the interval
    times the spacing (the division is exact); on main and test it is 240
    below height 145000 and 1 from it on. *)
Theorem DifficultyAdjustmentInterval_positive :
  forall (chain : string) (p : ChainParams.CChainParams) (h : Z),
    ChainParams.CreateChainParams chain = Some p ->
    let c := ChainParams.consensus p in
    1 <= Consensus.DifficultyAdjustmentInterval c h /\
    Consensus.DifficultyAdjustmentInterval c h * Consensus.nPowTargetSpacing c
    = Consensus.nPowTargetTimespan c h /\
    (chain <> "regtest"%string ->
     Consensus.DifficultyAdjustmentInterval c h
     = if h <? 145000 then 240 else 1).
Proof.
  intros chain p h Hsel c.
  destruct (CreateChainParams_cases chain p Hsel) as [[Hc Hp] | [[Hc Hp] | [Hc Hp]]];
    subst c; subst p; subst chain;
    unfold Consensus.DifficultyAdjustmentInterval, Consensus.nPowTargetTimespan;
    cbn [ChainParams.consensus ChainParams.CMainParams ChainParams.CTestNetParams
         ChainParams.CRegTestParams Consensus.PowTargetTimespan60Height
         Consensus.nPowTargetTimespanBegin Consensus.nPowTargetSpacing];
    repeat match goal with
           | |- context [?x >=? ?y] => destruct (Z.geb_spec x y)
           end;
    (split; [cbn; lia | split; [reflexivity|]]);
    intros Hreg; try (exfalso; apply Hreg; reflexivity);
    destruct (Z.ltb_spec h 145000); try reflexivity; lia.
Qed.

(** X18: an amount in [MoneyRange] lies between 0 and 10^18, so the sum and
    the difference of two such amounts fit a 64-bit signed integer. *)
Theorem MoneyRange_sum_fits :
  forall a b : Z,
    MoneyRange a = true -> MoneyRange b = true ->
    0 <= a <= 10 ^ 18 /\ - 2 ^ 63 <= a + b < 2 ^ 63 /\ - 2 ^ 63 <= a - b < 2 ^ 63.
Proof.
  intros a b Ha Hb. unfold MoneyRange, MAX_MONEY, COIN in *.
  apply andb_true_iff in Ha, Hb. destruct Ha as [Ha0 Ha1], Hb as [Hb0 Hb1].
  apply Z.geb_le in Ha0, Hb0. apply Z.leb_le in Ha1, Hb1.
  change (10 ^ 18) with 1000000000000000000.
  change (2 ^ 63) with 9223372036854775808. lia.
Qed.

(** ** Examples on concrete inputs *)

Lemma not_occurrence :
  forall (pat s : list byte) (k : nat),
    pat <> [] ->
    ~ In k (Samples2.occurrences pat s) ->
    starts_with pat (skipn k s) = false.
Proof.
  intros pat s k Hne Hnot.
  destruct (starts_with pat (skipn k s)) eqn:E; [|reflexivity].
  exfalso. apply Hnot. unfold Samples2.occurrences.
  apply filter_In. split; [|exact E].
  apply in_seq. pose proof (starts_with_nonempty_lt pat s k Hne E). lia.
Qed.

(** A hypothesis of one of the first five tests, on a concrete appendix. *)
Ltac by_evaluation := vm_compute; first [reflexivity | discriminate | lia].

(** No occurrence of a pattern at the offsets a hypothesis leaves. *)
Ltac by_scan :=
  let k := fresh "k" in
  let Hk := fresh "Hk" in
  let Hin := fresh "Hin" in
  intros k; try intros Hk;
  apply not_occurrence; [discriminate|];
  vm_compute; intros Hin;
  repeat match goal with
         | H : _ \/ _ |- _ => destruct H
         | H : False |- _ => destruct H
         end;
  subst; try (vm_compute in Hk);
  first [lia | congruence | (apply Hk; reflexivity)].

Lemma CheckMerkleBranch_ignores_high_bits_witness :
  Block.CheckMerkleBranch Samples.hash_of_ones Samples.branch4 8
  = Block.CheckMerkleBranch Samples.hash_of_ones Samples.branch4 (8 + 16 * 5).
Proof.
  apply (CheckMerkleBranch_ignores_high_bits
           Samples.hash_of_ones Samples.branch4 8 (8 + 16 * 5)).
  - lia.
  - lia.
  - reflexivity.
Defined.

Lemma CheckMerkleBranch_app_witness :
  Block.CheckMerkleBranch Samples.hash_of_ones
    (firstn 1 Samples.branch4 ++ skipn 1 Samples.branch4) 9
  = Block.CheckMerkleBranch
      (Block.CheckMerkleBranch Samples.hash_of_ones (firstn 1 Samples.branch4) 9)
      (skipn 1 Samples.branch4)
      (Z.shiftr 9 (Z.of_nat (length (firstn 1 Samples.branch4)))).
Proof.
  exact (proj1 (CheckMerkleBranch_app Samples.hash_of_ones Samples.hash_of_ones
                                     (firstn 1 Samples.branch4)
                                     (skipn 1 Samples.branch4) 9 ltac:(lia))).
Defined.

Lemma getExpectedIndex_in_range_witness :
  0 <= Block.getExpectedIndex 7 98 4 < 2 ^ 4 /\
  Block.getExpectedIndex 7 98 0 = 0.
Proof.
  split.
  - exact (proj1 (getExpectedIndex_in_range 7 98 4 ltac:(lia))).
  - exact (proj1 (proj2 (getExpectedIndex_in_range 7 98 0 ltac:(lia))) eq_refl).
Defined.

Lemma check_accept_sound_witness :
  nIndex (Samples.aux_with Samples2.script_magic [] 0) = 0 /\
  0 <= nChainIndex (Samples.aux_with Samples2.script_magic [] 0) < 2 ^ 0.
Proof.
  assert (Hv : Block.check (Samples.aux_with Samples2.script_magic [] 0)
                           Samples.hash_of_ones 98 Samples.main_consensus = Accept)
    by (vm_compute; reflexivity).
  destruct (check_accept_sound _ _ _ _ Hv) as [Hidx [_ [_ [_ [Hrange _]]]]].
  split; [exact Hidx | exact Hrange].
Defined.

Lemma check_accepts_magic_layout_witness :
  Block.check (Samples.aux_with Samples2.script_magic [] 0)
              Samples.hash_of_ones 98 Samples.main_consensus = Accept.
Proof.
  refine (check_accepts_magic_layout
            (Samples.aux_with Samples2.script_magic [] 0) Samples.hash_of_ones 98
            Samples.main_consensus (Samples.input_with Samples2.script_magic) []
            _ _ _ _ _ (Samples.preamble 25) [] 0 _ _ _ _).
  1-5: by_evaluation.
  - vm_compute. reflexivity.
  - by_scan.
  - by_scan.
  - vm_compute. reflexivity.
Defined.

Lemma check_reads_only_validated_fields_witness :
  Block.check (Samples.aux_no_magic 20) Samples.hash_of_ones 98
              Samples.main_consensus
  = Block.check Samples2.aux_other_fields Samples.hash_of_ones 98
                (ChainParams.consensus ChainParams.CRegTestParams).
Proof.
  apply check_reads_only_validated_fields; by_evaluation.
Defined.

Lemma check_missing_root_iff_witness :
  Block.check (Samples.aux_with Samples2.script_missing [] 0)
              Samples.hash_of_ones 98 Samples.main_consensus
  = Reject MissingChainMerkleRoot.
Proof.
  refine (proj2 (check_missing_root_iff
                   (Samples.aux_with Samples2.script_missing [] 0)
                   Samples.hash_of_ones 98 Samples.main_consensus
                   (Samples.input_with Samples2.script_missing) []
                   _ _ _ _ _) _).
  1-5: by_evaluation.
  by_scan.
Defined.

Lemma check_two_magics_witness :
  Block.check (Samples.aux_with Samples2.script_two_magics [] 0)
              Samples.hash_of_ones 98 Samples.main_consensus
  = Reject MultipleMergedMiningHeaders.
Proof.
  refine (check_two_magics
            (Samples.aux_with Samples2.script_two_magics [] 0)
            Samples.hash_of_ones 98 Samples.main_consensus
            (Samples.input_with Samples2.script_two_magics) []
            _ _ _ _ _ 0%nat 44%nat 4%nat _ _ _ _ _).
  1-5: by_evaluation.
  all: by_evaluation.
Defined.

Lemma check_magic_not_before_root_witness :
  Block.check (Samples.aux_with Samples2.script_gap [] 0)
              Samples.hash_of_ones 98 Samples.main_consensus
  = Reject HeaderNotJustBeforeRoot.
Proof.
  refine (check_magic_not_before_root
            (Samples.aux_with Samples2.script_gap [] 0)
            Samples.hash_of_ones 98 Samples.main_consensus
            (Samples.input_with Samples2.script_gap) []
            _ _ _ _ _ 0%nat 5%nat _ _ _ _ _ _).
  1-5: by_evaluation.
  - by_evaluation.
  - by_scan.
  - by_evaluation.
  - by_evaluation.
  - by_scan.
  - by_evaluation.
Defined.

Lemma check_legacy_trailer_witness :
  Block.check (Samples.aux_with Samples2.script_short [] 0)
              Samples.hash_of_ones 98 Samples.main_consensus
  = Reject ChainMerkleSizeMissing /\
  Block.check (Samples.aux_with Samples2.script_wrong_size [] 0)
              Samples.hash_of_ones 98 Samples.main_consensus
  = Reject MerkleBranchSizeMismatch.
Proof.
  split.
  - refine (proj1 (check_legacy_trailer
                     (Samples.aux_with Samples2.script_short [] 0)
                     Samples.hash_of_ones 98 Samples.main_consensus
                     (Samples.input_with Samples2.script_short) []
                     _ _ _ _ _ (Samples.preamble 5) Samples2.short_trailer
                     _ _ _ _ _) _).
    1-5: by_evaluation.
    + vm_compute. reflexivity.
    + by_evaluation.
    + vm_compute. discriminate.
    + by_scan.
    + by_scan.
    + by_evaluation.
  - refine (proj2 (check_legacy_trailer
                     (Samples.aux_with Samples2.script_wrong_size [] 0)
                     Samples.hash_of_ones 98 Samples.main_consensus
                     (Samples.input_with Samples2.script_wrong_size) []
                     _ _ _ _ _ (Samples.preamble 5) Samples2.wrong_trailer
                     _ _ _ _ _) _ _).
    1-5: by_evaluation.
    + vm_compute. reflexivity.
    + by_evaluation.
    + vm_compute. discriminate.
    + by_scan.
    + by_scan.
    + by_evaluation.
    + vm_compute. discriminate.
Defined.

Lemma SetBaseVersion_round_trip_witness :
  exists h',
    HeaderOps.SetBaseVersion Header.null 4 98 = Some h' /\
    Header.GetBaseVersion h' = 4 /\
    Header.GetChainId h' = 98 /\
    Header.IsAuxpow h' = false.
Proof.
  destruct (proj2 (SetBaseVersion_round_trip Header.null 4 98))
    as [h' [Hset [Hb [Hc [Ha _]]]]].
  - lia.
  - change (2 ^ 15) with 32768. lia.
  - reflexivity.
  - exists h'. repeat split; assumption.
Defined.

Lemma well_typed_parent_same_chain : HeaderOps.well_typed Samples.parent_same_chain.
Proof.
  unfold HeaderOps.well_typed. cbn.
  repeat split; try reflexivity; try discriminate.
Qed.

Lemma Unserialize_Serialize_witness :
  Header.Serialize Ser.SER_NETWORK Samples.parent_same_chain
  = Some (Header.preimage Samples.parent_same_chain) /\
  HeaderOps.Unserialize Samples2.no_appendix_reader Ser.SER_NETWORK
                        (Some (Samples.CAuxPow_default 0))
                        (Header.preimage Samples.parent_same_chain ++ [byte.of_Z 9])
  = Some (HeaderOps.with_auxpow Samples.parent_same_chain None, [byte.of_Z 9]).
Proof.
  apply (Unserialize_Serialize Samples2.no_appendix_reader Ser.SER_NETWORK
                               (Some (Samples.CAuxPow_default 0))
                               Samples.parent_same_chain [byte.of_Z 9]
                               well_typed_parent_same_chain);
    reflexivity.
Defined.

Lemma Unserialize_gives_well_formed_header_witness :
  HeaderOps.well_typed (HeaderOps.with_auxpow Samples.parent_same_chain None) /\
  Header.preimage (HeaderOps.with_auxpow Samples.parent_same_chain None)
  = firstn 80 (Header.preimage Samples.parent_same_chain ++ [byte.of_Z 9]).
Proof.
  assert (Hread :
    HeaderOps.Unserialize Samples2.no_appendix_reader Ser.SER_NETWORK None
                          (Header.preimage Samples.parent_same_chain ++ [byte.of_Z 9])
    = Some (HeaderOps.with_auxpow Samples.parent_same_chain None, [byte.of_Z 9]))
    by (vm_compute; reflexivity).
  destruct (Unserialize_gives_well_formed_header _ _ _ _ _ _ Hread)
    as [_ [Hwf [Hpre _]]].
  split; [exact Hwf | exact Hpre].
Defined.

Lemma nCoinbaseMaturity_single_transition_witness :
  Consensus.nCoinbaseMaturity (ChainParams.consensus ChainParams.CRegTestParams) 99999
  = 60 /\
  Consensus.nCoinbaseMaturity (ChainParams.consensus ChainParams.CRegTestParams) 100000
  = 240.
Proof.
  pose proof (nCoinbaseMaturity_single_transition
                "regtest" ChainParams.CRegTestParams 99999 eq_refl) as [Hlo _].
  pose proof (nCoinbaseMaturity_single_transition
                "regtest" ChainParams.CRegTestParams 100000 eq_refl) as [_ [Hhi _]].
  split.
  - apply Hlo. simpl. lia.
  - apply Hhi. simpl. lia.
Defined.

Lemma DifficultyAdjustmentInterval_positive_witness :
  1 <= Consensus.DifficultyAdjustmentInterval
         (ChainParams.consensus ChainParams.CMainParams) 144999 /\
  Consensus.DifficultyAdjustmentInterval
    (ChainParams.consensus ChainParams.CMainParams) 144999 = 240.
Proof.
  pose proof (DifficultyAdjustmentInterval_positive
                "main" ChainParams.CMainParams 144999 eq_refl) as [Hpos [_ Hval]].
  split; [exact Hpos|].
  apply Hval. discriminate.
Defined.

Lemma buildSimpleAuxPow_verdicts_witness :
  exists a : CAuxPow,
    auxpow (Block__Build.buildSimpleAuxPow Samples2.flag_bit8 2
                                           Samples.parent_legacy_v2) = Some a /\
    nIndex a = -1 /\
    Block__.check a (Header.GetHash Samples.parent_legacy_v2) 98
                  Samples.main_consensus = Accept /\
    Block.check a (Header.GetHash Samples.parent_legacy_v2) 98
                Samples.main_consensus = Reject NotAGenerate.
Proof.
  apply (buildSimpleAuxPow_verdicts Samples2.flag_bit8 2 Samples.parent_legacy_v2
                                    98 Samples.main_consensus).
  - by_scan.
  - vm_compute. discriminate.
  - reflexivity.
Defined.

Lemma MoneyRange_sum_fits_witness :
  0 <= 88 * COIN <= 10 ^ 18 /\
  - 2 ^ 63 <= 88 * COIN + MAX_MONEY < 2 ^ 63 /\
  - 2 ^ 63 <= 88 * COIN - MAX_MONEY < 2 ^ 63.
Proof.
  apply MoneyRange_sum_fits; reflexivity.
Defined.
